(** * Typing Speed Game: the session engine of [main.py]

    A shallow embedding of the [TypingGame] application object: its
    reactive attributes become the fields of a record, its handlers become
    functions on that record, and the readings the handlers take from the
    outside world (the clock, [random.choice], the username dialog, the
    user-management dialog, the file system) are supplied by an
    environment record.

    Modelling conventions.
    - Python [int] is [Z]; positions inside a line and list indices are
      [nat].
    - a clock reading, [start_time] and [elapsed_time] are the exact
      rational value [Q] of the double the attribute holds; the
      accuracies, the live WPM and the countdown are computed from them
      in [Q], without the rounding of doubles. Where the code truncates
      a float with [int] (the final WPM of [complete_game]), the
      arithmetic is carried out on IEEE 754 binary64 numbers, as Python
      does, with the operations of the standard library's [SpecFloat]
      (round to nearest, ties to even): there the last bit of a
      quotient decides the integer.
    - [str] is [string], one character is [ascii].
    - the class attribute [mistake_positions] (a Python [set]) is a
      [gset nat]; [user_data] (a [dict]) is a [gmap string UserStats].
    - a handler that raises (an [IndexError] from [random.choice] on an
      empty list or from [current_lines[0]] on a paragraph without words)
      returns [None].
    - workers started with [run_worker] and the coroutines they await run
      to completion before the next event is taken.
    - widgets, themes' colours and [update_display] are rendering and are
      left out; [theme_index] is kept because [on_key] changes it. *)

From Stdlib Require Import ZArith QArith Qround String Ascii List Lia Lqa.
From Stdlib Require SpecFloat.
From stdpp Require Import gmap strings list fin_maps.

Local Open Scope Z_scope.

(** ** Data model *)

(** [class GameState(Enum)] *)
Inductive GameState : Type :=
  | USER_SETUP
  | USER_SELECT
  | MENU
  | READY
  | IN_TEST
  | COMPLETE.

(** The three strings [game_mode] ranges over: ["30sec"], ["30word"],
    ["unlimited"]; [None] is [game_mode = None]. *)
Inductive Mode : Type :=
  | Mode30sec
  | Mode30word
  | ModeUnlimited.

(** The callbacks registered with [set_interval(0.1, ...)]. *)
Inductive Timer : Type :=
  | TimerCountdown   (* update_countdown *)
  | TimerElapsed.    (* update_timer *)

#[global] Instance GameState_eq_dec : EqDecision GameState.
Proof. solve_decision. Defined.
#[global] Instance Mode_eq_dec : EqDecision Mode.
Proof. solve_decision. Defined.
#[global] Instance Timer_eq_dec : EqDecision Timer.
Proof. solve_decision. Defined.

(** One value of the [user_data] dictionary. *)
Record UserStats : Type := mkUserStats {
  tests_completed : Z;
  total_wpm : Q;
  best_wpm : Z;
  total_accuracy : Q;
  best_accuracy : Q
}.

(** An element of [completed_lines_history]:
    [(target_text, typed_text, mistake_positions_set)]. *)
Definition HistoryEntry : Type := (string * string * gset nat)%type.

Record TypingGame : Type := mkTypingGame {
  game_state : GameState;
  target_text : string;
  typed_text : string;
  completed : bool;
  start_time : Q;
  elapsed_time : Q;
  accuracy : Q;
  mistakes : Z;
  theme_index : nat;
  game_mode : option Mode;
  current_line_index : nat;
  lines_completed : Z;
  total_chars_typed : Z;
  total_words_typed : Z;
  countdown_remaining : Q;
  current_user : option string;
  user_data : gmap string UserStats;
  mistake_positions : gset nat;
  current_streak : Z;
  best_streak : Z;
  live_wpm : Q;
  live_accuracy : Q;
  current_lines : list string;
  current_paragraph : string;
  completed_lines_history : list HistoryEntry;
  paragraphs : list string;
  timers : list Timer;
  users_json : option (option string * gmap string UserStats)
}.

Definition set_game_state (v : GameState) (g : TypingGame) : TypingGame :=
  mkTypingGame v (target_text g) (typed_text g) (completed g) (start_time g)
    (elapsed_time g) (accuracy g) (mistakes g) (theme_index g) (game_mode g)
    (current_line_index g) (lines_completed g) (total_chars_typed g)
    (total_words_typed g) (countdown_remaining g) (current_user g)
    (user_data g) (mistake_positions g) (current_streak g) (best_streak g)
    (live_wpm g) (live_accuracy g) (current_lines g) (current_paragraph g)
    (completed_lines_history g) (paragraphs g) (timers g) (users_json g).

Definition set_target_text (v : string) (g : TypingGame) : TypingGame :=
  mkTypingGame (game_state g) v (typed_text g) (completed g) (start_time g)
    (elapsed_time g) (accuracy g) (mistakes g) (theme_index g) (game_mode g)
    (current_line_index g) (lines_completed g) (total_chars_typed g)
    (total_words_typed g) (countdown_remaining g) (current_user g)
    (user_data g) (mistake_positions g) (current_streak g) (best_streak g)
    (live_wpm g) (live_accuracy g) (current_lines g) (current_paragraph g)
    (completed_lines_history g) (paragraphs g) (timers g) (users_json g).

Definition set_typed_text (v : string) (g : TypingGame) : TypingGame :=
  mkTypingGame (game_state g) (target_text g) v (completed g) (start_time g)
    (elapsed_time g) (accuracy g) (mistakes g) (theme_index g) (game_mode g)
    (current_line_index g) (lines_completed g) (total_chars_typed g)
    (total_words_typed g) (countdown_remaining g) (current_user g)
    (user_data g) (mistake_positions g) (current_streak g) (best_streak g)
    (live_wpm g) (live_accuracy g) (current_lines g) (current_paragraph g)
    (completed_lines_history g) (paragraphs g) (timers g) (users_json g).

Definition set_completed (v : bool) (g : TypingGame) : TypingGame :=
  mkTypingGame (game_state g) (target_text g) (typed_text g) v (start_time g)
    (elapsed_time g) (accuracy g) (mistakes g) (theme_index g) (game_mode g)
    (current_line_index g) (lines_completed g) (total_chars_typed g)
    (total_words_typed g) (countdown_remaining g) (current_user g)
    (user_data g) (mistake_positions g) (current_streak g) (best_streak g)
    (live_wpm g) (live_accuracy g) (current_lines g) (current_paragraph g)
    (completed_lines_history g) (paragraphs g) (timers g) (users_json g).

Definition set_start_time (v : Q) (g : TypingGame) : TypingGame :=
  mkTypingGame (game_state g) (target_text g) (typed_text g) (completed g) v
    (elapsed_time g) (accuracy g) (mistakes g) (theme_index g) (game_mode g)
    (current_line_index g) (lines_completed g) (total_chars_typed g)
    (total_words_typed g) (countdown_remaining g) (current_user g)
    (user_data g) (mistake_positions g) (current_streak g) (best_streak g)
    (live_wpm g) (live_accuracy g) (current_lines g) (current_paragraph g)
    (completed_lines_history g) (paragraphs g) (timers g) (users_json g).

Definition set_elapsed_time (v : Q) (g : TypingGame) : TypingGame :=
  mkTypingGame (game_state g) (target_text g) (typed_text g) (completed g)
    (start_time g) v (accuracy g) (mistakes g) (theme_index g) (game_mode g)
    (current_line_index g) (lines_completed g) (total_chars_typed g)
    (total_words_typed g) (countdown_remaining g) (current_user g)
    (user_data g) (mistake_positions g) (current_streak g) (best_streak g)
    (live_wpm g) (live_accuracy g) (current_lines g) (current_paragraph g)
    (completed_lines_history g) (paragraphs g) (timers g) (users_json g).

Definition set_accuracy (v : Q) (g : TypingGame) : TypingGame :=
  mkTypingGame (game_state g) (target_text g) (typed_text g) (completed g)
    (start_time g) (elapsed_time g) v (mistakes g) (theme_index g)
    (game_mode g) (current_line_index g) (lines_completed g)
    (total_chars_typed g) (total_words_typed g) (countdown_remaining g)
    (current_user g) (user_data g) (mistake_positions g) (current_streak g)
    (best_streak g) (live_wpm g) (live_accuracy g) (current_lines g)
    (current_paragraph g) (completed_lines_history g) (paragraphs g)
    (timers g) (users_json g).

Definition set_mistakes (v : Z) (g : TypingGame) : TypingGame :=
  mkTypingGame (game_state g) (target_text g) (typed_text g) (completed g)
    (start_time g) (elapsed_time g) (accuracy g) v (theme_index g)
    (game_mode g) (current_line_index g) (lines_completed g)
    (total_chars_typed g) (total_words_typed g) (countdown_remaining g)
    (current_user g) (user_data g) (mistake_positions g) (current_streak g)
    (best_streak g) (live_wpm g) (live_accuracy g) (current_lines g)
    (current_paragraph g) (completed_lines_history g) (paragraphs g)
    (timers g) (users_json g).

Definition set_theme_index (v : nat) (g : TypingGame) : TypingGame :=
  mkTypingGame (game_state g) (target_text g) (typed_text g) (completed g)
    (start_time g) (elapsed_time g) (accuracy g) (mistakes g) v (game_mode g)
    (current_line_index g) (lines_completed g) (total_chars_typed g)
    (total_words_typed g) (countdown_remaining g) (current_user g)
    (user_data g) (mistake_positions g) (current_streak g) (best_streak g)
    (live_wpm g) (live_accuracy g) (current_lines g) (current_paragraph g)
    (completed_lines_history g) (paragraphs g) (timers g) (users_json g).

Definition set_game_mode (v : option Mode) (g : TypingGame) : TypingGame :=
  mkTypingGame (game_state g) (target_text g) (typed_text g) (completed g)
    (start_time g) (elapsed_time g) (accuracy g) (mistakes g) (theme_index g)
    v (current_line_index g) (lines_completed g) (total_chars_typed g)
    (total_words_typed g) (countdown_remaining g) (current_user g)
    (user_data g) (mistake_positions g) (current_streak g) (best_streak g)
    (live_wpm g) (live_accuracy g) (current_lines g) (current_paragraph g)
    (completed_lines_history g) (paragraphs g) (timers g) (users_json g).

Definition set_current_line_index (v : nat) (g : TypingGame) : TypingGame :=
  mkTypingGame (game_state g) (target_text g) (typed_text g) (completed g)
    (start_time g) (elapsed_time g) (accuracy g) (mistakes g) (theme_index g)
    (game_mode g) v (lines_completed g) (total_chars_typed g)
    (total_words_typed g) (countdown_remaining g) (current_user g)
    (user_data g) (mistake_positions g) (current_streak g) (best_streak g)
    (live_wpm g) (live_accuracy g) (current_lines g) (current_paragraph g)
    (completed_lines_history g) (paragraphs g) (timers g) (users_json g).

Definition set_lines_completed (v : Z) (g : TypingGame) : TypingGame :=
  mkTypingGame (game_state g) (target_text g) (typed_text g) (completed g)
    (start_time g) (elapsed_time g) (accuracy g) (mistakes g) (theme_index g)
    (game_mode g) (current_line_index g) v (total_chars_typed g)
    (total_words_typed g) (countdown_remaining g) (current_user g)
    (user_data g) (mistake_positions g) (current_streak g) (best_streak g)
    (live_wpm g) (live_accuracy g) (current_lines g) (current_paragraph g)
    (completed_lines_history g) (paragraphs g) (timers g) (users_json g).

Definition set_total_chars_typed (v : Z) (g : TypingGame) : TypingGame :=
  mkTypingGame (game_state g) (target_text g) (typed_text g) (completed g)
    (start_time g) (elapsed_time g) (accuracy g) (mistakes g) (theme_index g)
    (game_mode g) (current_line_index g) (lines_completed g) v
    (total_words_typed g) (countdown_remaining g) (current_user g)
    (user_data g) (mistake_positions g) (current_streak g) (best_streak g)
    (live_wpm g) (live_accuracy g) (current_lines g) (current_paragraph g)
    (completed_lines_history g) (paragraphs g) (timers g) (users_json g).

Definition set_total_words_typed (v : Z) (g : TypingGame) : TypingGame :=
  mkTypingGame (game_state g) (target_text g) (typed_text g) (completed g)
    (start_time g) (elapsed_time g) (accuracy g) (mistakes g) (theme_index g)
    (game_mode g) (current_line_index g) (lines_completed g)
    (total_chars_typed g) v (countdown_remaining g) (current_user g)
    (user_data g) (mistake_positions g) (current_streak g) (best_streak g)
    (live_wpm g) (live_accuracy g) (current_lines g) (current_paragraph g)
    (completed_lines_history g) (paragraphs g) (timers g) (users_json g).

Definition set_countdown_remaining (v : Q) (g : TypingGame) : TypingGame :=
  mkTypingGame (game_state g) (target_text g) (typed_text g) (completed g)
    (start_time g) (elapsed_time g) (accuracy g) (mistakes g) (theme_index g)
    (game_mode g) (current_line_index g) (lines_completed g)
    (total_chars_typed g) (total_words_typed g) v (current_user g)
    (user_data g) (mistake_positions g) (current_streak g) (best_streak g)
    (live_wpm g) (live_accuracy g) (current_lines g) (current_paragraph g)
    (completed_lines_history g) (paragraphs g) (timers g) (users_json g).

Definition set_current_user (v : option string) (g : TypingGame) : TypingGame :=
  mkTypingGame (game_state g) (target_text g) (typed_text g) (completed g)
    (start_time g) (elapsed_time g) (accuracy g) (mistakes g) (theme_index g)
    (game_mode g) (current_line_index g) (lines_completed g)
    (total_chars_typed g) (total_words_typed g) (countdown_remaining g) v
    (user_data g) (mistake_positions g) (current_streak g) (best_streak g)
    (live_wpm g) (live_accuracy g) (current_lines g) (current_paragraph g)
    (completed_lines_history g) (paragraphs g) (timers g) (users_json g).

Definition set_user_data (v : gmap string UserStats)
    (g : TypingGame) : TypingGame :=
  mkTypingGame (game_state g) (target_text g) (typed_text g) (completed g)
    (start_time g) (elapsed_time g) (accuracy g) (mistakes g) (theme_index g)
    (game_mode g) (current_line_index g) (lines_completed g)
    (total_chars_typed g) (total_words_typed g) (countdown_remaining g)
    (current_user g) v (mistake_positions g) (current_streak g)
    (best_streak g) (live_wpm g) (live_accuracy g) (current_lines g)
    (current_paragraph g) (completed_lines_history g) (paragraphs g)
    (timers g) (users_json g).

Definition set_mistake_positions (v : gset nat) (g : TypingGame) : TypingGame :=
  mkTypingGame (game_state g) (target_text g) (typed_text g) (completed g)
    (start_time g) (elapsed_time g) (accuracy g) (mistakes g) (theme_index g)
    (game_mode g) (current_line_index g) (lines_completed g)
    (total_chars_typed g) (total_words_typed g) (countdown_remaining g)
    (current_user g) (user_data g) v (current_streak g) (best_streak g)
    (live_wpm g) (live_accuracy g) (current_lines g) (current_paragraph g)
    (completed_lines_history g) (paragraphs g) (timers g) (users_json g).

Definition set_current_streak (v : Z) (g : TypingGame) : TypingGame :=
  mkTypingGame (game_state g) (target_text g) (typed_text g) (completed g)
    (start_time g) (elapsed_time g) (accuracy g) (mistakes g) (theme_index g)
    (game_mode g) (current_line_index g) (lines_completed g)
    (total_chars_typed g) (total_words_typed g) (countdown_remaining g)
    (current_user g) (user_data g) (mistake_positions g) v (best_streak g)
    (live_wpm g) (live_accuracy g) (current_lines g) (current_paragraph g)
    (completed_lines_history g) (paragraphs g) (timers g) (users_json g).

Definition set_best_streak (v : Z) (g : TypingGame) : TypingGame :=
  mkTypingGame (game_state g) (target_text g) (typed_text g) (completed g)
    (start_time g) (elapsed_time g) (accuracy g) (mistakes g) (theme_index g)
    (game_mode g) (current_line_index g) (lines_completed g)
    (total_chars_typed g) (total_words_typed g) (countdown_remaining g)
    (current_user g) (user_data g) (mistake_positions g) (current_streak g) v
    (live_wpm g) (live_accuracy g) (current_lines g) (current_paragraph g)
    (completed_lines_history g) (paragraphs g) (timers g) (users_json g).

Definition set_live_wpm (v : Q) (g : TypingGame) : TypingGame :=
  mkTypingGame (game_state g) (target_text g) (typed_text g) (completed g)
    (start_time g) (elapsed_time g) (accuracy g) (mistakes g) (theme_index g)
    (game_mode g) (current_line_index g) (lines_completed g)
    (total_chars_typed g) (total_words_typed g) (countdown_remaining g)
    (current_user g) (user_data g) (mistake_positions g) (current_streak g)
    (best_streak g) v (live_accuracy g) (current_lines g)
    (current_paragraph g) (completed_lines_history g) (paragraphs g)
    (timers g) (users_json g).

Definition set_live_accuracy (v : Q) (g : TypingGame) : TypingGame :=
  mkTypingGame (game_state g) (target_text g) (typed_text g) (completed g)
    (start_time g) (elapsed_time g) (accuracy g) (mistakes g) (theme_index g)
    (game_mode g) (current_line_index g) (lines_completed g)
    (total_chars_typed g) (total_words_typed g) (countdown_remaining g)
    (current_user g) (user_data g) (mistake_positions g) (current_streak g)
    (best_streak g) (live_wpm g) v (current_lines g) (current_paragraph g)
    (completed_lines_history g) (paragraphs g) (timers g) (users_json g).

Definition set_current_lines (v : list string) (g : TypingGame) : TypingGame :=
  mkTypingGame (game_state g) (target_text g) (typed_text g) (completed g)
    (start_time g) (elapsed_time g) (accuracy g) (mistakes g) (theme_index g)
    (game_mode g) (current_line_index g) (lines_completed g)
    (total_chars_typed g) (total_words_typed g) (countdown_remaining g)
    (current_user g) (user_data g) (mistake_positions g) (current_streak g)
    (best_streak g) (live_wpm g) (live_accuracy g) v (current_paragraph g)
    (completed_lines_history g) (paragraphs g) (timers g) (users_json g).

Definition set_current_paragraph (v : string) (g : TypingGame) : TypingGame :=
  mkTypingGame (game_state g) (target_text g) (typed_text g) (completed g)
    (start_time g) (elapsed_time g) (accuracy g) (mistakes g) (theme_index g)
    (game_mode g) (current_line_index g) (lines_completed g)
    (total_chars_typed g) (total_words_typed g) (countdown_remaining g)
    (current_user g) (user_data g) (mistake_positions g) (current_streak g)
    (best_streak g) (live_wpm g) (live_accuracy g) (current_lines g) v
    (completed_lines_history g) (paragraphs g) (timers g) (users_json g).

Definition set_completed_lines_history (v : list HistoryEntry)
    (g : TypingGame) : TypingGame :=
  mkTypingGame (game_state g) (target_text g) (typed_text g) (completed g)
    (start_time g) (elapsed_time g) (accuracy g) (mistakes g) (theme_index g)
    (game_mode g) (current_line_index g) (lines_completed g)
    (total_chars_typed g) (total_words_typed g) (countdown_remaining g)
    (current_user g) (user_data g) (mistake_positions g) (current_streak g)
    (best_streak g) (live_wpm g) (live_accuracy g) (current_lines g)
    (current_paragraph g) v (paragraphs g) (timers g) (users_json g).

Definition set_paragraphs (v : list string) (g : TypingGame) : TypingGame :=
  mkTypingGame (game_state g) (target_text g) (typed_text g) (completed g)
    (start_time g) (elapsed_time g) (accuracy g) (mistakes g) (theme_index g)
    (game_mode g) (current_line_index g) (lines_completed g)
    (total_chars_typed g) (total_words_typed g) (countdown_remaining g)
    (current_user g) (user_data g) (mistake_positions g) (current_streak g)
    (best_streak g) (live_wpm g) (live_accuracy g) (current_lines g)
    (current_paragraph g) (completed_lines_history g) v (timers g)
    (users_json g).

Definition set_timers (v : list Timer) (g : TypingGame) : TypingGame :=
  mkTypingGame (game_state g) (target_text g) (typed_text g) (completed g)
    (start_time g) (elapsed_time g) (accuracy g) (mistakes g) (theme_index g)
    (game_mode g) (current_line_index g) (lines_completed g)
    (total_chars_typed g) (total_words_typed g) (countdown_remaining g)
    (current_user g) (user_data g) (mistake_positions g) (current_streak g)
    (best_streak g) (live_wpm g) (live_accuracy g) (current_lines g)
    (current_paragraph g) (completed_lines_history g) (paragraphs g) v
    (users_json g).

Definition set_users_json (v : option (option string * gmap string UserStats))
    (g : TypingGame) : TypingGame :=
  mkTypingGame (game_state g) (target_text g) (typed_text g) (completed g)
    (start_time g) (elapsed_time g) (accuracy g) (mistakes g) (theme_index g)
    (game_mode g) (current_line_index g) (lines_completed g)
    (total_chars_typed g) (total_words_typed g) (countdown_remaining g)
    (current_user g) (user_data g) (mistake_positions g) (current_streak g)
    (best_streak g) (live_wpm g) (live_accuracy g) (current_lines g)
    (current_paragraph g) (completed_lines_history g) (paragraphs g)
    (timers g) v.

(** What one handler reads from outside the application object. *)
Record Env : Type := mkEnv {
  now_start : Q;            (* time.time() when the timer is started *)
  now_typed : Q;            (* time.time() after the character is scored *)
  now_done : Q;             (* time.time() inside complete_game *)
  pick : nat;               (* the draw of random.choice *)
  prompt : option string;   (* what UsernameScreen is dismissed with *)
  io_ok : bool;             (* whether users.json can be written *)
  menu_users : gmap string UserStats;
                            (* user_data as UserMenuScreen leaves it *)
  menu_result : option (string * option string)
                            (* the dict UserMenuScreen is dismissed with:
                               its "action" and its "user" *)
}.

(** ** Python helpers *)

(** A Python [float]: an IEEE 754 binary64 number, precision 53 and
    maximal exponent 1024. *)
Definition float : Type := SpecFloat.spec_float.

(** [float(n)] for an [int] [n]: the nearest double. *)
Definition float_of_int (n : Z) : float :=
  SpecFloat.binary_normalize 53 1024 n 0 false.

(** [x / y] on floats, and on an [int] and a float once the [int] is
    converted. Python raises for a zero divisor; the divisors of
    [complete_game] are 5, 60, 0.5, 1 and a [minutes] it has tested to
    be positive. *)
Definition truediv (x y : float) : float := SpecFloat.SFdiv 53 1024 x y.

(** [x < y] on floats. *)
Definition float_lt (x y : float) : bool := SpecFloat.SFltb x y.

(** The literals [0] and [0.5]. *)
Definition float_zero : float := SpecFloat.S754_zero false.
Definition float_half : float :=
  SpecFloat.S754_finite false 4503599627370496 (-53).

(** [int(x)] for a float [x]: truncation toward zero. Python raises on
    an infinity and on a NaN; the quotient of [complete_game] is one
    only beyond 1.7e308, for an elapsed time below 1e-305 seconds, and
    [py_int] is 0 there. *)
Definition py_int (x : float) : Z :=
  match x with
  | SpecFloat.S754_finite s m e =>
      let n :=
        match e with
        | Zneg k => Z.shiftr (Zpos m) (Zpos k)
        | _ => Z.shiftl (Zpos m) e
        end in
      if s then - n else n
  | _ => 0
  end.

(** The double a float attribute stands for: the quotient of numerator
    and denominator in lowest terms. For the value of a double (an odd
    numerator below 2^53 over a power of two, or an integer multiple of
    a power of two) both conversions and the division are exact. *)
Definition float_of_Q (q : Q) : float :=
  let q := Qred q in
  truediv (float_of_int (Qnum q)) (float_of_int (Zpos (Qden q))).

(** [c.isspace()] on the ASCII range, as [str.split()] uses it. *)
Definition isspace (c : ascii) : bool :=
  let n := nat_of_ascii c in
  ((9 <=? n) && (n <=? 13) || (28 <=? n) && (n <=? 32))%nat.

(** [s.split()]: maximal runs of non-space characters. [cur] is the word
    being read. *)
Fixpoint split_from (cur : string) (s : string) : list string :=
  match s with
  | EmptyString => if decide (cur = EmptyString) then [] else [cur]
  | String c rest =>
      if isspace c
      then (if decide (cur = EmptyString) then split_from EmptyString rest
            else cur :: split_from EmptyString rest)
      else split_from (cur +:+ String c EmptyString) rest
  end.

Definition split (s : string) : list string := split_from EmptyString s.

(** [" ".join(ws)] *)
Definition join (ws : list string) : string := String.concat " " ws.

(** [random.choice(l)] with draw [n]; raises on the empty list. *)
Definition random_choice {A : Type} (l : list A) (n : nat) : option A :=
  l !! (n `mod` length l)%nat.

(** Truthiness of a [str]-or-[None] value. *)
Definition truthy (o : option string) : bool :=
  match o with
  | Some u => negb (String.eqb u EmptyString)
  | None => false
  end.

(** ** TextLibrary *)

(** The body of the [for word in words] loop of [split_into_lines]. *)
Fixpoint split_loop (max_words_per_line : nat) (words : list string)
    (lines : list string) (current_line : list string)
    : list string * list string :=
  match words with
  | [] => (lines, current_line)
  | word :: words' =>
      let current_line := current_line ++ [word] in
      if (max_words_per_line <=? length current_line)%nat
      then split_loop max_words_per_line words'
             (lines ++ [join current_line]) []
      else split_loop max_words_per_line words' lines current_line
  end.

Definition split_into_lines_n (paragraph : string)
    (max_words_per_line : nat) : list string :=
  let words := split paragraph in
  let '(lines, current_line) :=
    split_loop max_words_per_line words [] [] in
  match current_line with
  | [] => lines
  | _ :: _ => lines ++ [join current_line]
  end.

(** [split_into_lines(paragraph)] with the default [max_words_per_line]. *)
Definition split_into_lines (paragraph : string) : list string :=
  split_into_lines_n paragraph 10.

(** ** UserProfileStore *)

(** The dictionary [create_user] stores for a new name. *)
Definition new_user_stats : UserStats := mkUserStats 0 0 0 0 0.

(** [save_user_data]: writes [current_user] and [user_data] to
    [users.json]; an [IOError] is swallowed. *)
Definition save_user_data (e : Env) (g : TypingGame) : TypingGame :=
  if io_ok e
  then set_users_json (Some (current_user g, user_data g)) g
  else g.

Definition create_user (username : string) (g : TypingGame) : TypingGame :=
  match user_data g !! username with
  | Some _ => g
  | None => set_user_data (<[username := new_user_stats]> (user_data g)) g
  end.

(** [update_user_stats(wpm, accuracy)]. Once the user has been ensured,
    the lookup of the current user cannot fail, so its [None] branch is
    never taken. *)
Definition update_user_stats (e : Env) (wpm : Z) (acc : Q)
    (g : TypingGame) : TypingGame :=
  if negb (truthy (current_user g)) then g
  else
    match current_user g with
    | None => g
    | Some name =>
        let g :=
          match user_data g !! name with
          | None => create_user name g
          | Some _ => g
          end in
        match user_data g !! name with
        | None => g
        | Some user =>
            let user :=
              mkUserStats (tests_completed user + 1)
                (total_wpm user + inject_Z wpm)%Q
                (if best_wpm user <? wpm then wpm else best_wpm user)
                (total_accuracy user + acc)%Q
                (if Qlt_le_dec (best_accuracy user) acc
                 then acc else best_accuracy user) in
            save_user_data e (set_user_data (<[name := user]> (user_data g)) g)
        end
    end.

(** [prompt_username]: waits for [UsernameScreen]. *)
Definition prompt_username (e : Env) (g : TypingGame) : TypingGame :=
  if truthy (prompt e)
  then
    match prompt e with
    | Some username =>
        save_user_data e (set_current_user (Some username)
                            (create_user username g))
    | None => g
    end
  else g.

(** ** MetricsEngine *)

(** The accuracy expression of [handle_character] and [complete_game]:
    [((total_chars_typed - mistakes) / total_chars_typed) * 100]. *)
Definition accuracy_of (chars mist : Z) : Q :=
  ((inject_Z (chars - mist) / inject_Z chars) * 100)%Q.

(** The local [wpm] of [complete_game], as a function of the attributes
    it reads, in binary64. Every mode other than ["30sec"] and
    ["30word"] takes the [else] branch. *)

(** [self.total_chars_typed / 5]: the true division of two [int]s, which
    for operands below 2^53 is the float division of their doubles. *)
Definition chars_words (chars : Z) : float :=
  truediv (float_of_int chars) (float_of_int 5).

(** [self.elapsed_time / 60]. *)
Definition elapsed_minutes (elapsed : Q) : float :=
  truediv (float_of_Q elapsed) (float_of_int 60).

Definition final_words (mode : option Mode) (chars : Z) : float :=
  match mode with
  | Some Mode30sec => chars_words chars
  | Some Mode30word => float_of_int 30
  | _ => chars_words chars
  end.

Definition final_minutes (mode : option Mode) (elapsed : Q) : float :=
  match mode with
  | Some Mode30sec => float_half
  | Some Mode30word => elapsed_minutes elapsed
  | _ =>
      if float_lt float_zero (float_of_Q elapsed)
      then elapsed_minutes elapsed else float_of_int 1
  end.

Definition final_wpm (mode : option Mode) (chars : Z) (elapsed : Q) : Z :=
  let words := final_words mode chars in
  let minutes := final_minutes mode elapsed in
  if float_lt float_zero minutes then py_int (truediv words minutes) else 0.

(** ** TypingSession *)

Definition history_append (g : TypingGame) : TypingGame :=
  set_completed_lines_history
    (completed_lines_history g
       ++ [(target_text g, typed_text g, mistake_positions g)]) g.

Definition complete_game (e : Env) (g : TypingGame) : TypingGame :=
  let g := set_completed true g in
  let g := set_game_state COMPLETE g in
  let g :=
    if negb (String.eqb (typed_text g) EmptyString)
    then history_append g else g in
  let g :=
    if Qlt_le_dec 0 (start_time g)
    then set_elapsed_time (now_done e - start_time g)%Q g else g in
  let g :=
    if 0 <? total_chars_typed g
    then set_accuracy (accuracy_of (total_chars_typed g) (mistakes g)) g
    else set_accuracy 0%Q g in
  let wpm := final_wpm (game_mode g) (total_chars_typed g) (elapsed_time g) in
  let g :=
    match current_user g with
    | None => prompt_username e g
    | Some _ => g
    end in
  if truthy (current_user g)
  then update_user_stats e wpm (accuracy g) g
  else g.

(** The branch of [check_line_completion] that cycles to a new paragraph. *)
Definition next_paragraph (e : Env) (g : TypingGame) : option TypingGame :=
  paragraph ← random_choice (paragraphs g) (pick e);
  let g := set_current_paragraph paragraph g in
  let g := set_current_lines (split_into_lines paragraph) g in
  let g := set_current_line_index 0%nat g in
  target ← current_lines g !! 0%nat;
  let g := set_target_text target g in
  let g := set_typed_text EmptyString g in
  Some (set_mistake_positions ∅ g).

Definition check_line_completion (e : Env) (g : TypingGame)
    : option TypingGame :=
  if (String.length (typed_text g) =? String.length (target_text g))%nat
  then
    let g := history_append g in
    let g := set_lines_completed (lines_completed g + 1) g in
    let words_in_line := Z.of_nat (length (split (target_text g))) in
    let g := set_total_words_typed (total_words_typed g + words_in_line) g in
    if bool_decide (game_mode g = Some Mode30word)
       && (30 <=? total_words_typed g)
    then Some (complete_game e g)
    else if Z.of_nat (current_line_index g)
              <? Z.of_nat (length (current_lines g)) - 1
    then
      let g := set_current_line_index (current_line_index g + 1)%nat g in
      target ← current_lines g !! current_line_index g;
      let g := set_target_text target g in
      let g := set_typed_text EmptyString g in
      Some (set_mistake_positions ∅ g)
    else
      match game_mode g with
      | Some Mode30sec => next_paragraph e g
      | Some ModeUnlimited => Some (complete_game e g)
      | _ => Some g
      end
  else Some g.

(** The scoring of the character just appended to [typed_text]. *)
Definition score_character (g : TypingGame) : TypingGame :=
  let current_pos := (String.length (typed_text g) - 1)%nat in
  if (current_pos <? String.length (target_text g))%nat
     && bool_decide (String.get current_pos (typed_text g)
                     ≠ String.get current_pos (target_text g))
  then
    let g :=
      if bool_decide (current_pos ∈ mistake_positions g) then g
      else
        let g :=
          set_mistake_positions ({[current_pos]} ∪ mistake_positions g) g in
        set_mistakes (mistakes g + 1) g in
    set_current_streak 0 g
  else
    let g := set_current_streak (current_streak g + 1) g in
    if best_streak g <? current_streak g
    then set_best_streak (current_streak g) g else g.

(** The live statistics block of [handle_character]. *)
Definition update_live_stats (e : Env) (g : TypingGame) : TypingGame :=
  let g :=
    if Qlt_le_dec 0 (start_time g)
    then set_elapsed_time (now_typed e - start_time g)%Q g else g in
  if Qlt_le_dec 0 (start_time g)
  then
    let elapsed_minutes := (elapsed_time g / 60)%Q in
    let g :=
      if Qlt_le_dec 0 elapsed_minutes
      then set_live_wpm
             ((inject_Z (total_chars_typed g) / 5) / elapsed_minutes)%Q g
      else g in
    if 0 <? total_chars_typed g
    then set_live_accuracy
           (accuracy_of (total_chars_typed g) (mistakes g)) g
    else g
  else g.

(** The timer start of [handle_character]. *)
Definition start_timer (e : Env) (g : TypingGame) : TypingGame :=
  if (String.length (typed_text g) =? 0)%nat && Qeq_bool (start_time g) 0
  then
    let g := set_start_time (now_start e) g in
    match game_mode g with
    | Some Mode30sec => set_timers (timers g ++ [TimerCountdown]) g
    | Some _ => set_timers (timers g ++ [TimerElapsed]) g
    | None => g
    end
  else g.

Definition space : ascii := " "%char.

Definition handle_character (e : Env) (char : ascii) (g : TypingGame)
    : option TypingGame :=
  if bool_decide (char = space)
     && (String.length (typed_text g) =? 0)%nat
     && (0 <? String.length (target_text g))%nat
     && bool_decide (String.get 0 (target_text g) ≠ Some space)
  then Some g
  else
    let g := start_timer e g in
    if bool_decide (char = space)
       && (String.length (target_text g) <=? String.length (typed_text g))%nat
    then check_line_completion e g
    else if (String.length (target_text g)
               <=? String.length (typed_text g))%nat
    then check_line_completion e g
    else
      let g := set_typed_text (typed_text g +:+ String char EmptyString) g in
      let g := set_total_chars_typed (total_chars_typed g + 1) g in
      let g := score_character g in
      let g := update_live_stats e g in
      check_line_completion e g.

(** ** SessionStateMachine *)

(** The assignments shared by [start_mode], [restart] and
    [return_to_menu]: every per-session attribute back to its initial
    value. *)
Definition reset_session (g : TypingGame) : TypingGame :=
  let g := set_typed_text EmptyString g in
  let g := set_completed false g in
  let g := set_start_time 0%Q g in
  let g := set_elapsed_time 0%Q g in
  let g := set_accuracy 0%Q g in
  let g := set_mistakes 0 g in
  let g := set_mistake_positions ∅ g in
  let g := set_lines_completed 0 g in
  let g := set_total_chars_typed 0 g in
  let g := set_total_words_typed 0 g in
  let g := set_countdown_remaining 30%Q g in
  let g := set_completed_lines_history [] g in
  let g := set_current_streak 0 g in
  let g := set_best_streak 0 g in
  let g := set_live_wpm 0%Q g in
  set_live_accuracy 0%Q g.

Definition start_mode (mode : Mode) (e : Env) (g : TypingGame)
    : option TypingGame :=
  let g := set_game_state MENU g in
  let g := set_game_mode (Some mode) g in
  paragraph ← random_choice (paragraphs g) (pick e);
  let g := set_current_paragraph paragraph g in
  let g := set_current_lines (split_into_lines paragraph) g in
  let g := set_current_line_index 0%nat g in
  target ← current_lines g !! 0%nat;
  let g := set_target_text target g in
  Some (reset_session g).

Definition update_countdown (e : Env) (g : TypingGame) : TypingGame :=
  if Qlt_le_dec 0 (start_time g) then
    if completed g then g
    else
      let elapsed := (now_typed e - start_time g)%Q in
      let g := set_elapsed_time elapsed g in
      let g :=
        set_countdown_remaining
          (if Qlt_le_dec 0 (30 - elapsed) then (30 - elapsed)%Q else 0%Q) g in
      if Qlt_le_dec 0 (countdown_remaining g) then g
      else complete_game e g
  else g.

Definition update_timer (e : Env) (g : TypingGame) : TypingGame :=
  if Qlt_le_dec 0 (start_time g) then
    if completed g then g
    else set_elapsed_time (now_typed e - start_time g)%Q g
  else g.

Definition ready_up (g : TypingGame) : TypingGame :=
  set_game_state READY g.

Definition cancel_ready (g : TypingGame) : TypingGame :=
  let g := set_game_state MENU g in
  let g := set_typed_text EmptyString g in
  let g := set_start_time 0%Q g in
  set_elapsed_time 0%Q g.

Definition cancel_test (g : TypingGame) : TypingGame :=
  let g := set_game_state MENU g in
  let g := set_typed_text EmptyString g in
  let g := set_start_time 0%Q g in
  set_elapsed_time 0%Q g.

Definition return_to_menu (g : TypingGame) : TypingGame :=
  let g := set_game_state MENU g in
  let g := set_game_mode None g in
  let g := set_current_line_index 0%nat g in
  let g := set_current_lines [] g in
  let g := set_current_paragraph EmptyString g in
  reset_session g.

Definition restart (g : TypingGame) : option TypingGame :=
  match game_mode g with
  | None => Some g
  | Some mode =>
      let paragraph := current_paragraph g in
      let g := set_game_state READY g in
      let g := set_game_mode (Some mode) g in
      let g := set_current_paragraph paragraph g in
      let g := set_current_lines (split_into_lines (current_paragraph g)) g in
      let g := set_current_line_index 0%nat g in
      target ← current_lines g !! 0%nat;
      let g := set_target_text target g in
      Some (reset_session g)
  end.

Definition new_paragraph (e : Env) (g : TypingGame) : option TypingGame :=
  match game_mode g with
  | None => Some g
  | Some mode => start_mode mode e g
  end.

(** [len(THEMES)] *)
Definition THEMES_len : nat := 4.

Definition cycle_theme (g : TypingGame) : TypingGame :=
  set_theme_index ((theme_index g + 1) `mod` THEMES_len)%nat g.

(** [show_user_menu]: [UserMenuScreen] edits the shared [user_data]
    dictionary in place and is dismissed with an action and a user. *)
Definition show_user_menu (e : Env) (g : TypingGame) : TypingGame :=
  let g := set_user_data (menu_users e) g in
  match menu_result e with
  | Some (action, user) =>
      if String.eqb action "switch" || String.eqb action "back"
      then save_user_data e (set_current_user user g)
      else g
  | None => g
  end.

(** [char_map] of [on_key]; the quotation mark is character 34. *)
Definition entry (key : string) (c : ascii) : string * ascii := (key, c).

Definition char_map : list (string * ascii) :=
  [ entry "period" "."; entry "full_stop" "."; entry "comma" ",";
    entry "exclamation_mark" "!"; entry "question_mark" "?"; entry "colon" ":";
    entry "semicolon" ";"; entry "apostrophe" "'";
    entry "quotation_mark" (ascii_of_nat 34); entry "hyphen" "-";
    entry "minus" "-";
    entry "underscore" "_"; entry "slash" "/"; entry "backslash" "\";
    entry "left_parenthesis" "("; entry "right_parenthesis" ")";
    entry "left_square_bracket" "["; entry "right_square_bracket" "]";
    entry "at" "@"; entry "number_sign" "#"; entry "dollar_sign" "$";
    entry "percent_sign" "%"; entry "ampersand" "&"; entry "asterisk" "*";
    entry "plus" "+"; entry "equals" "=" ].

Definition char_map_get (key : string) : option ascii :=
  snd <$> List.find (fun p => String.eqb (fst p) key) char_map.

(** The character a key types: the [space] branch, the [char_map] branch
    and the [len(event.key) == 1] branch, in that order. *)
Definition typed_char (key : string) : option ascii :=
  if String.eqb key "space" then Some space
  else
    match char_map_get key with
    | Some c => Some c
    | None =>
        match key with
        | String c EmptyString => Some c
        | _ => None
        end
    end.

Definition on_key (key : string) (e : Env) (g : TypingGame)
    : option TypingGame :=
  match game_state g with
  | MENU =>
      if String.eqb key "1" then start_mode Mode30sec e g
      else if String.eqb key "2" then start_mode Mode30word e g
      else if String.eqb key "3" then start_mode ModeUnlimited e g
      else if String.eqb key "tab" then Some (cycle_theme g)
      else if String.eqb key "u" then Some (show_user_menu e g)
      else if String.eqb key "s" then Some g              (* show_stats *)
      else if String.eqb key "enter" && bool_decide (game_mode g ≠ None)
      then Some (ready_up g)
      else Some g                        (* "escape": self.exit(); others *)
  | READY =>
      if String.eqb key "enter" then Some (cancel_ready g)
      else if String.eqb key "tab" then Some (cycle_theme g)
      else
        match typed_char key with
        | Some c => handle_character e c (set_game_state IN_TEST g)
        | None => Some g
        end
  | IN_TEST =>
      if String.eqb key "escape" then Some (cancel_test g)
      else if String.eqb key "backspace"
      then
        if negb (String.eqb (typed_text g) EmptyString)
        then Some (set_typed_text
                     (String.substring 0
                        (String.length (typed_text g) - 1) (typed_text g)) g)
        else Some g
      else
        match typed_char key with
        | Some c => handle_character e c g
        | None => Some g
        end
  | COMPLETE =>
      if String.eqb key "n" then new_paragraph e g
      else if String.eqb key "r" then restart g
      else if String.eqb key "tab" then Some (cycle_theme g)
      else if String.eqb key "m" || String.eqb key "escape"
      then Some (return_to_menu g)
      else if String.eqb key "u" then Some (show_user_menu e g)
      else Some g                               (* "s": show_stats; others *)
  | _ => Some g
  end.

(** ** Events *)

(** What the application reacts to: a key press, or the firing of an
    interval timer. A timer callback runs only once it has been
    registered. *)
Inductive Event : Type :=
  | Key (key : string)
  | Tick (t : Timer).

Definition step (ev : Event) (e : Env) (g : TypingGame)
    : option TypingGame :=
  match ev with
  | Key key => on_key key e g
  | Tick t =>
      if bool_decide (t ∈ timers g)
      then
        match t with
        | TimerCountdown => Some (update_countdown e g)
        | TimerElapsed => Some (update_timer e g)
        end
      else Some g
  end.

(** A run: the events in order, each with the environment it sees. *)
Fixpoint run (evs : list (Event * Env)) (g : TypingGame)
    : option TypingGame :=
  match evs with
  | [] => Some g
  | (ev, e) :: evs' => g' ← step ev e g; run evs' g'
  end.

(** The application object once [on_mount] has loaded the practice texts
    and the user file: every reactive attribute at its class default. *)
Definition mounted (ps : list string) (user : option string)
    (users : gmap string UserStats)
    (disk : option (option string * gmap string UserStats)) : TypingGame :=
  mkTypingGame MENU EmptyString EmptyString false 0%Q 0%Q 0%Q 0 0%nat None
    0%nat 0 0 0 30%Q user users ∅ 0 0 0%Q 0%Q [] EmptyString [] ps [] disk.

Inductive reachable : TypingGame -> Prop :=
  | reachable_mounted ps user users disk :
      reachable (mounted ps user users disk)
  | reachable_step g ev e g' :
      reachable g -> step ev e g = Some g' -> reachable g'.

(** * Vocabulary of the properties *)

(** ** Frames

    Which attributes a handler can change is recorded by erasing them:
    two application objects that agree after erasure agree on every other
    attribute. The tuples [store], [core] and [marks] collect the
    attributes one family of properties speaks about. *)

(** Erasure of the attributes owned by the user store. *)
Definition erase_store (g : TypingGame) : TypingGame :=
  set_current_user None (set_user_data ∅ (set_users_json None g)).

(** Erasure of the attributes [complete_game] writes. *)
Definition erase_result (g : TypingGame) : TypingGame :=
  set_completed false
    (set_game_state MENU
       (set_completed_lines_history []
          (set_elapsed_time 0%Q (set_accuracy 0%Q (erase_store g))))).

(** The attributes owned by the user store. *)
Definition store (g : TypingGame)
    : option string * gmap string UserStats
      * option (option string * gmap string UserStats) :=
  (current_user g, user_data g, users_json g).

(** The attributes the bounds speak about. *)
Definition core (g : TypingGame) : Z * Z * Z * Z * Q * Q * Q :=
  (mistakes g, total_chars_typed g, current_streak g, best_streak g,
   live_wpm g, live_accuracy g, accuracy g).

(** The attributes the mistake bookkeeping reads and writes. *)
Definition marks (g : TypingGame) : Z * gset nat * Z :=
  (mistakes g, mistake_positions g, lines_completed g).

(** Reduction of attribute reads through the setters. *)
Ltac fields :=
  cbn [
    game_state target_text typed_text completed start_time elapsed_time
    accuracy mistakes theme_index game_mode current_line_index
    lines_completed total_chars_typed total_words_typed
    countdown_remaining current_user user_data mistake_positions
    current_streak best_streak live_wpm live_accuracy current_lines
    current_paragraph completed_lines_history paragraphs timers
    users_json set_game_state set_target_text set_typed_text
    set_completed set_start_time set_elapsed_time set_accuracy
    set_mistakes set_theme_index set_game_mode set_current_line_index
    set_lines_completed set_total_chars_typed set_total_words_typed
    set_countdown_remaining set_current_user set_user_data
    set_mistake_positions set_current_streak set_best_streak
    set_live_wpm set_live_accuracy set_current_lines
    set_current_paragraph set_completed_lines_history set_paragraphs
    set_timers set_users_json erase_store erase_result history_append ].

Ltac fields_in H :=
  cbn [
    game_state target_text typed_text completed start_time elapsed_time
    accuracy mistakes theme_index game_mode current_line_index
    lines_completed total_chars_typed total_words_typed
    countdown_remaining current_user user_data mistake_positions
    current_streak best_streak live_wpm live_accuracy current_lines
    current_paragraph completed_lines_history paragraphs timers
    users_json set_game_state set_target_text set_typed_text
    set_completed set_start_time set_elapsed_time set_accuracy
    set_mistakes set_theme_index set_game_mode set_current_line_index
    set_lines_completed set_total_chars_typed set_total_words_typed
    set_countdown_remaining set_current_user set_user_data
    set_mistake_positions set_current_streak set_best_streak
    set_live_wpm set_live_accuracy set_current_lines
    set_current_paragraph set_completed_lines_history set_paragraphs
    set_timers set_users_json erase_store erase_result history_append ] in H.

(** Boolean tests on integers, read back as propositions. *)
Ltac tests :=
  repeat match goal with
         | H : (_ <? _) = true |- _ => fields_in H; apply Z.ltb_lt in H
         | H : (_ <? _) = false |- _ => fields_in H; apply Z.ltb_ge in H
         | H : (_ <=? _) = true |- _ => fields_in H; apply Z.leb_le in H
         | H : (_ <=? _) = false |- _ => fields_in H; apply Z.leb_gt in H
         end.

(** ** Bounds and sessions *)

(** A float without a minus sign: [+0.0], a positive number, [+inf], or
    a NaN. *)
Definition unsigned (x : float) : Prop :=
  match x with
  | SpecFloat.S754_zero s
  | SpecFloat.S754_infinity s
  | SpecFloat.S754_finite s _ _ => s = false
  | SpecFloat.S754_nan => True
  end.

Definition metrics_ok (g : TypingGame) : Prop :=
  0 <= mistakes g <= total_chars_typed g
  /\ (0 <= live_accuracy g)%Q /\ (live_accuracy g <= 100)%Q
  /\ (0 <= accuracy g)%Q /\ (accuracy g <= 100)%Q
  /\ (0 <= live_wpm g)%Q.

Definition streak_ok (g : TypingGame) : Prop :=
  0 <= best_streak g /\ current_streak g <= best_streak g.

Definition sound (g : TypingGame) : Prop := metrics_ok g /\ streak_ok g.

(** [g'] is a later stage of the session of [g]: the bounds carry over
    and the best streak has not gone down. *)
Definition grows (g g' : TypingGame) : Prop :=
  sound g -> sound g' /\ best_streak g <= best_streak g'.

(** The keys that start a fresh session or throw the current one away:
    those [on_key] routes to [start_mode], [new_paragraph], [restart] and
    [return_to_menu]. *)
Definition resets_session (ev : Event) (g : TypingGame) : bool :=
  match ev, game_state g with
  | Key key, MENU =>
      String.eqb key "1" || String.eqb key "2" || String.eqb key "3"
  | Key key, COMPLETE =>
      String.eqb key "n" || String.eqb key "r" || String.eqb key "m"
      || String.eqb key "escape"
  | _, _ => false
  end.

(** No event of the run creates or discards a session. *)
Fixpoint same_session (evs : list (Event * Env)) (g : TypingGame) : bool :=
  match evs with
  | [] => true
  | (ev, e) :: evs' =>
      negb (resets_session ev g)
      && match step ev e g with
         | Some g' => same_session evs' g'
         | None => true
         end
  end.

(** ** Cancelling, mistakes, final WPM and the history *)

(** What "the session is discarded entirely" asks of the state after a
    cancel: no mode, and every per-session attribute back at its initial
    value. *)
Definition session_discarded (g : TypingGame) : Prop :=
  game_mode g = None
  /\ typed_text g = EmptyString
  /\ total_chars_typed g = 0
  /\ mistakes g = 0
  /\ total_words_typed g = 0
  /\ current_streak g = 0
  /\ best_streak g = 0
  /\ mistake_positions g = ∅
  /\ completed_lines_history g = [].

(** What one event does to the bookkeeping while the line stays the
    same: nothing, or one new offset, the cursor's, and one more
    mistake. *)
Definition marked (g g' : TypingGame) : Prop :=
  (mistakes g' = mistakes g /\ mistake_positions g' = mistake_positions g)
  \/ (mistakes g' = mistakes g + 1
      /\ (String.length (typed_text g) ∉ mistake_positions g)
      /\ mistake_positions g' =
           {[String.length (typed_text g)]} ∪ mistake_positions g).

(** The run stays inside one line instance: every event arrives in
    [IN_TEST] and none completes the line. *)
Fixpoint same_line (evs : list (Event * Env)) (g : TypingGame) : bool :=
  match evs with
  | [] => true
  | (ev, e) :: evs' =>
      match step ev e g with
      | Some g' =>
          bool_decide (game_state g = IN_TEST)
          && bool_decide (lines_completed g' = lines_completed g)
          && same_line evs' g'
      | None => false
      end
  end.

(** How many events of the run raise [mistakes] with the cursor at
    offset [k]. *)
Fixpoint mistake_hits (k : nat) (evs : list (Event * Env)) (g : TypingGame)
    : nat :=
  match evs with
  | [] => 0%nat
  | (ev, e) :: evs' =>
      match step ev e g with
      | Some g' =>
          ((if bool_decide (String.length (typed_text g) = k
                            /\ mistakes g' <> mistakes g)
            then 1 else 0)
           + mistake_hits k evs' g')%nat
      | None => 0%nat
      end
  end.

(** The time [complete_game] computes the final WPM with. *)
Definition final_elapsed (e : Env) (g : TypingGame) : Q :=
  if Qlt_le_dec 0 (start_time g)
  then (now_done e - start_time g)%Q else elapsed_time g.

Definition history_entry (g : TypingGame) : HistoryEntry :=
  (target_text g, typed_text g, mistake_positions g).

(** The completing keystroke ends the test: the word target is reached
    in ["30word"] mode, or the last line is done in ["unlimited"] mode. *)
Definition ends_test (g : TypingGame) : bool :=
  let words :=
    total_words_typed g + Z.of_nat (length (split (target_text g))) in
  bool_decide (game_mode g = Some Mode30word) && (30 <=? words)
  || negb (Z.of_nat (current_line_index g)
             <? Z.of_nat (length (current_lines g)) - 1)
     && bool_decide (game_mode g = Some ModeUnlimited).

(** ** Sample sessions

    [sample_typing]: one user and a library of two short paragraphs; mode
    1 is chosen, the test is readied, [a] is typed correctly (which
    completes the only line of the first paragraph and cycles to the
    second one) and then [y] is typed where [b] was expected. *)

Definition at_time (t : Z) (n : nat) : Env :=
  mkEnv (inject_Z t) (inject_Z t) (inject_Z t) n None true ∅ None.

Definition sample_library : list string := ["a"; "bc"]%string.

Definition sample_start : TypingGame :=
  mounted sample_library (Some "bob"%string) ∅ None.

(** After key [1]: mode chosen, still in the menu. *)
Definition sample_chosen : TypingGame :=
  default sample_start (step (Key "1") (at_time 100 0) sample_start).

Definition sample_keys : list (Event * Env) :=
  [ (Key "enter", at_time 101 0); (Key "a", at_time 102 1);
    (Key "y", at_time 103 0) ]%string.

Definition sample_typing : TypingGame :=
  default sample_chosen (run sample_keys sample_chosen).

(** The sample session cancelled with [escape], and the test that
    follows it: readied with [enter], [b] typed, and the countdown
    expiring 30 seconds later. *)
Definition sample_cancelled : TypingGame := cancel_test sample_typing.

Definition sample_again : list (Event * Env) :=
  [ (Key "enter", at_time 105 0); (Key "b", at_time 106 0);
    (Tick TimerCountdown, at_time 136 0) ]%string.

Definition sample_rescored : TypingGame :=
  default sample_cancelled (run sample_again sample_cancelled).

(** The sample session continued on the line ["bc"]: [y] is typed at
    offset 0, deleted, [z] is typed there, deleted, and then [b]. *)
Definition sample_line : TypingGame :=
  default sample_chosen
    (run [ (Key "enter", at_time 101 0); (Key "a", at_time 102 1) ]%string
       sample_chosen).

Definition sample_retype : list (Event * Env) :=
  [ (Key "y", at_time 103 0); (Key "backspace", at_time 104 0);
    (Key "z", at_time 105 0); (Key "backspace", at_time 106 0);
    (Key "b", at_time 107 0) ]%string.

Definition sample_retyped : TypingGame :=
  default sample_line (run sample_retype sample_line).

(** A one-paragraph library whose paragraph is the single line ["ab"],
    in ["unlimited"] mode, with [a] already typed. *)
Definition last_line_start : TypingGame :=
  mounted ["ab"%string] (Some "bob"%string) ∅ None.

Definition last_line_keys : list (Event * Env) :=
  [ (Key "3", at_time 100 0); (Key "enter", at_time 101 0);
    (Key "a", at_time 102 0) ]%string.

Definition last_line : TypingGame :=
  default last_line_start (run last_line_keys last_line_start).

(** A library of two paragraphs, ["ab cd"] and ["ef"]; mode 2 is chosen
    with the first paragraph and its only line is typed. *)
Definition sprint_start : TypingGame :=
  mounted ["ab cd"; "ef"]%string (Some "bob"%string) ∅ None.

Definition sprint_keys : list (Event * Env) :=
  [ (Key "2", at_time 100 0); (Key "enter", at_time 101 0);
    (Key "a", at_time 102 1); (Key "b", at_time 103 1);
    (Key "space", at_time 104 1); (Key "c", at_time 105 1);
    (Key "d", at_time 106 1) ]%string.

Definition sprint_done : TypingGame :=
  default sprint_start (run sprint_keys sprint_start).

(** The scenario of the leading space: target line ["cat sat"], nothing
    typed yet. *)
Definition cat_sat : TypingGame :=
  set_game_state IN_TEST (set_target_text "cat sat" sample_chosen).

(** ** Words and lines *)

(** No character of [s] is white space. *)
Fixpoint no_space (s : string) : bool :=
  match s with
  | EmptyString => true
  | String c rest => negb (isspace c) && no_space rest
  end.

(** What [str.split()] returns the elements of: non-empty runs without
    white space. *)
Definition is_word (w : string) : Prop :=
  w <> EmptyString /\ no_space w = true.

(** [len(line.split())] *)
Definition word_count (line : string) : nat := length (split line).

(** The words of a list of lines, in order. *)
Definition words_of (lines : list string) : list string :=
  concat (map split lines).

(** What [split_into_lines_n] returns from the state of its loop. *)
Definition flush (st : list string * list string) : list string :=
  match snd st with
  | [] => fst st
  | _ :: _ => fst st ++ [join (snd st)]
  end.

(** All chunks but the last have [m] elements, and none is empty or
    longer. *)
Definition greedy_chunks (m : nat) (chunks : list (list string)) : Prop :=
  Forall (fun ch => (0 < length ch <= m)%nat) chunks
  /\ forall i ch,
       chunks !! i = Some ch -> (i + 1 < length chunks)%nat -> length ch = m.

(** ** Well-formed application objects *)

(** A test is readied, running or finished. *)
Definition in_session (s : GameState) : Prop :=
  s = READY \/ s = IN_TEST \/ s = COMPLETE.

(** The number of words of the first [n] lines. *)
Definition words_before (n : nat) (lines : list string) : Z :=
  Z.of_nat (length (words_of (take n lines))).

(** What every handler keeps about the text being typed, whatever the
    state of the buffer. *)
Record text_ok (g : TypingGame) : Prop := mk_text_ok {
  text_lines :
    game_mode g <> None ->
    current_paragraph g ∈ paragraphs g
    /\ current_lines g = split_into_lines (current_paragraph g)
    /\ current_lines g !! current_line_index g = Some (target_text g);
  text_buffer :
    (String.length (typed_text g) <= String.length (target_text g))%nat;
  text_marks :
    forall k, k ∈ mistake_positions g ->
              (k < String.length (target_text g))%nat;
  text_countdown : (0 <= countdown_remaining g)%Q
}.

(** What the state machine keeps between events. *)
Record machine_ok (g : TypingGame) : Prop := mk_machine_ok {
  machine_text : text_ok g;
  machine_completed : completed g = true <-> game_state g = COMPLETE;
  machine_mode : in_session (game_state g) -> game_mode g <> None;
  machine_idle :
    game_state g <> IN_TEST -> game_state g <> COMPLETE ->
    typed_text g = EmptyString /\ start_time g = 0%Q;
  machine_words :
    game_mode g = Some Mode30word -> completed g = false ->
    total_words_typed g < 30;
  machine_history :
    completed g = false ->
    Z.of_nat (length (completed_lines_history g)) = lines_completed g;
  machine_progress :
    game_mode g = Some Mode30word -> completed g = false ->
    total_words_typed g = words_before (current_line_index g) (current_lines g)
    \/ (length (split (current_paragraph g)) < 30)%nat;
  machine_room :
    completed g = false -> game_mode g <> None ->
    (game_mode g = Some Mode30word ->
     (30 <= length (split (current_paragraph g)))%nat) ->
    (String.length (typed_text g) < String.length (target_text g))%nat;
  machine_count : 0 <= total_words_typed g
}.

(** The attributes [text_ok] reads. *)
Definition text_shape (g : TypingGame) :=
  (game_mode g, current_paragraph g, paragraphs g, current_lines g,
   current_line_index g, target_text g, typed_text g, mistake_positions g,
   countdown_remaining g).

(** The further attributes [machine_ok] reads. *)
Definition machine_shape (g : TypingGame) :=
  (game_state g, completed g, start_time g, total_words_typed g,
   completed_lines_history g, lines_completed g).

(** ** The state machine's table *)

(** The moves of [game_state] one event can make. *)
Definition allowed (s s' : GameState) : bool :=
  match s, s' with
  | USER_SETUP, USER_SETUP | USER_SELECT, USER_SELECT => true
  | MENU, MENU | MENU, READY => true
  | READY, MENU | READY, READY | READY, IN_TEST | READY, COMPLETE => true
  | IN_TEST, IN_TEST | IN_TEST, MENU | IN_TEST, COMPLETE => true
  | COMPLETE, COMPLETE | COMPLETE, MENU | COMPLETE, READY => true
  | _, _ => false
  end.

(** The attributes a test keeps from its first to its last event. *)
Definition kept (g : TypingGame) :=
  (game_mode g, paragraphs g, mistakes g, total_chars_typed g,
   current_streak g, best_streak g).

(** ** More sample sessions *)

(** The one-line session of [last_line], with the line finished. *)
Definition sample_complete : TypingGame :=
  default last_line
    (run (last_line_keys ++ [(Key "b"%string, at_time 103 0)])
       last_line_start).

(** A paragraph of eleven words. *)
Definition eleven_words : string := "a b c d e f g h i j k".

(** * Properties *)

(** ** Input handling: leading space and backspace *)

Lemma typed_char_space : typed_char "space" = Some space.
Proof. reflexivity. Qed.

Lemma length_append (s t : string) :
  String.length (s +:+ t) = (String.length s + String.length t)%nat.
Proof. induction s as [| a s IH]; simpl; [reflexivity | now rewrite IH]. Qed.

Lemma substring_prefix (s t : string) :
  String.substring 0 (String.length s) (s +:+ t) = s.
Proof.
  induction s as [| a s IH]; simpl.
  - destruct t; reflexivity.
  - now rewrite IH.
Qed.

(** Python's [s[:-1]] on a string that ends with [c]. *)
Lemma substring_drop_last (t : string) (c : ascii) :
  String.substring 0 (String.length (t +:+ String c EmptyString) - 1)
    (t +:+ String c EmptyString) = t.
Proof.
  rewrite length_append. simpl String.length.
  replace (String.length t + 1 - 1)%nat with (String.length t) by lia.
  apply substring_prefix.
Qed.

(** C6. Leading-space suppression: with an empty typed buffer and a
    non-empty target line that does not begin with a space, a space input
    is discarded. [handle_character] returns the application object as it
    received it, so the buffer stays empty, no mistake is recorded, no
    counter changes, [start_time] keeps its value and no timer is
    registered; the same holds for the ["space"] key in [IN_TEST]. *)
Theorem leading_space_discarded (e : Env) (g : TypingGame) :
  typed_text g = EmptyString ->
  target_text g <> EmptyString ->
  String.get 0 (target_text g) <> Some space ->
  handle_character e space g = Some g
  /\ (game_state g = IN_TEST -> on_key "space" e g = Some g).
Proof.
  intros Htyped Htarget Hfirst.
  assert (Hc : handle_character e space g = Some g).
  { unfold handle_character. rewrite Htyped.
    destruct (target_text g) as [| a t] eqn:Ht; [congruence |].
    rewrite bool_decide_true by reflexivity.
    rewrite (bool_decide_true _ Hfirst). reflexivity. }
  split; [exact Hc |].
  intros Hstate. unfold on_key. rewrite Hstate.
  cbn [String.eqb Ascii.eqb Bool.eqb]. rewrite typed_char_space. exact Hc.
Qed.

(** C7. Backspace in [IN_TEST] replaces [typed_text] by [typed_text[:-1]]
    when it is non-empty and does nothing when it is empty; every other
    attribute, among them the counters, the streaks, the mistake positions
    and the current line, keeps its value. *)
Theorem backspace_only_trims (e : Env) (g : TypingGame) :
  game_state g = IN_TEST ->
  exists g',
    on_key "backspace" e g = Some g'
    /\ (typed_text g = EmptyString -> g' = g)
    /\ (forall t c, typed_text g = t +:+ String c EmptyString ->
          g' = set_typed_text t g)
    /\ total_chars_typed g' = total_chars_typed g
    /\ mistakes g' = mistakes g
    /\ current_streak g' = current_streak g
    /\ best_streak g' = best_streak g
    /\ mistake_positions g' = mistake_positions g
    /\ current_line_index g' = current_line_index g
    /\ target_text g' = target_text g
    /\ current_lines g' = current_lines g
    /\ lines_completed g' = lines_completed g
    /\ completed_lines_history g' = completed_lines_history g.
Proof.
  intros Hstate. unfold on_key. rewrite Hstate.
  cbn [String.eqb Ascii.eqb Bool.eqb].
  destruct (typed_text g) as [| a t0] eqn:Ht.
  - exists g. cbn. repeat split; try reflexivity.
    intros t c Hc. destruct t; discriminate.
  - eexists. split; [reflexivity |].
    split; [discriminate |].
    split; [| cbn; repeat split; reflexivity].
    intros t c Hc. f_equal. rewrite Hc. apply substring_drop_last.
Qed.

(** ** Frames of the store handlers and of [complete_game] *)

Lemma save_user_data_store e g :
  erase_store (save_user_data e g) = erase_store g.
Proof. unfold save_user_data. destruct (io_ok e); reflexivity. Qed.

Lemma create_user_store name g :
  erase_store (create_user name g) = erase_store g.
Proof. unfold create_user. destruct (user_data g !! name); reflexivity. Qed.

Lemma update_user_stats_store e wpm acc g :
  erase_store (update_user_stats e wpm acc g) = erase_store g.
Proof.
  unfold update_user_stats.
  destruct (negb (truthy (current_user g))); [reflexivity |].
  destruct (current_user g) as [name |]; [| reflexivity].
  cbv zeta.
  set (g1 := match user_data g !! name with
             | None => create_user name g
             | Some _ => g
             end).
  assert (H1 : erase_store g1 = erase_store g).
  { subst g1. destruct (user_data g !! name); [reflexivity |].
    apply create_user_store. }
  destruct (user_data g1 !! name); [| exact H1].
  rewrite save_user_data_store. exact H1.
Qed.

Lemma prompt_username_store e g :
  erase_store (prompt_username e g) = erase_store g.
Proof.
  unfold prompt_username.
  destruct (truthy (prompt e)); [| reflexivity].
  destruct (prompt e) as [name |]; [| reflexivity].
  rewrite save_user_data_store. apply (create_user_store name g).
Qed.

Lemma erase_result_store g g' :
  erase_store g' = erase_store g -> erase_result g' = erase_result g.
Proof. unfold erase_result. now intros ->. Qed.

Lemma complete_game_result e g :
  erase_result (complete_game e g) = erase_result g.
Proof.
  unfold complete_game.
  repeat match goal with
         | |- context [if ?b then _ else _] => destruct b
         | |- context [match current_user ?x with _ => _ end] =>
             destruct (current_user x) eqn:?
         | |- erase_result (update_user_stats _ _ _ _) = _ =>
             rewrite (erase_result_store _ _ (update_user_stats_store _ _ _ _))
         | |- erase_result (prompt_username _ _) = _ =>
             rewrite (erase_result_store _ _ (prompt_username_store _ _))
         end; reflexivity.
Qed.

(** ** Metrics: the bounds the handlers maintain *)

Lemma grows_refl g : grows g g.
Proof. intros H. split; [exact H | lia]. Qed.

Lemma grows_trans g1 g2 g3 : grows g1 g2 -> grows g2 g3 -> grows g1 g3.
Proof.
  intros H12 H23 H1. destruct (H12 H1) as [H2 Hb].
  destruct (H23 H2) as [H3 Hb'].
  split; [exact H3 | lia].
Qed.

Lemma core_grows g g' : core g' = core g -> grows g g'.
Proof.
  unfold core, grows, sound, metrics_ok, streak_ok. intros Hc Hs.
  injection Hc as -> -> -> -> -> -> ->. split; [exact Hs | lia].
Qed.

Lemma accuracy_of_bounds (chars mist : Z) :
  0 <= mist <= chars -> 0 < chars ->
  (0 <= accuracy_of chars mist)%Q /\ (accuracy_of chars mist <= 100)%Q.
Proof.
  intros Hm Hc. unfold accuracy_of.
  assert (H0 : (0 < inject_Z chars)%Q) by (rewrite <- (Zlt_Qlt 0); exact Hc).
  assert (Hlo : (0 <= inject_Z (chars - mist) / inject_Z chars)%Q).
  { apply Qle_shift_div_l; [exact H0 |]. rewrite Qmult_0_l.
    rewrite <- (Zle_Qle 0). lia. }
  assert (Hhi : (inject_Z (chars - mist) / inject_Z chars <= 1)%Q).
  { apply Qle_shift_div_r; [exact H0 |]. rewrite Qmult_1_l.
    rewrite <- Zle_Qle. lia. }
  split; lra.
Qed.

Lemma live_wpm_nonneg (chars : Z) (minutes : Q) :
  0 <= chars -> (0 < minutes)%Q -> (0 <= inject_Z chars / 5 / minutes)%Q.
Proof.
  intros Hc Hm. apply Qle_shift_div_l; [exact Hm |]. rewrite Qmult_0_l.
  apply Qle_shift_div_l; [reflexivity |]. rewrite Qmult_0_l.
  rewrite <- (Zle_Qle 0). exact Hc.
Qed.

(** The sign of a float is that of its operands: rounding keeps the
    sign it is given, so a quotient of floats without a minus sign has
    none, and [int] of it is not negative. *)
Lemma binary_round_aux_unsigned prec emax m e l :
  unsigned (SpecFloat.binary_round_aux prec emax false m e l).
Proof.
  unfold SpecFloat.binary_round_aux.
  destruct (SpecFloat.shr_fexp prec emax m e l) as [mrs e'].
  destruct (SpecFloat.shr_fexp prec emax _ e' _) as [mrs' e''].
  destruct (SpecFloat.shr_m mrs'); [reflexivity | | exact I].
  destruct (e'' <=? emax - prec); reflexivity.
Qed.

Lemma float_of_int_unsigned (n : Z) : 0 <= n -> unsigned (float_of_int n).
Proof.
  intros Hn. unfold float_of_int, SpecFloat.binary_normalize.
  destruct n as [| p | p]; [reflexivity | | lia].
  unfold SpecFloat.binary_round.
  destruct (SpecFloat.shl_align p 0 _) as [mz ez].
  apply binary_round_aux_unsigned.
Qed.

Lemma truediv_unsigned (x y : float) : unsigned x -> unsigned y -> unsigned (truediv x y).
Proof.
  unfold truediv.
  destruct x as [sx | sx | | sx mx ex], y as [sy | sy | | sy my ey];
    cbn [unsigned SpecFloat.SFdiv]; intros Hx Hy; subst; try reflexivity;
    try exact I.
  destruct (SpecFloat.SFdiv_core_binary 53 1024 (Z.pos mx) ex (Z.pos my) ey)
    as [[mz ez] lz].
  apply binary_round_aux_unsigned.
Qed.

Lemma float_lt_unsigned (y : float) : float_lt float_zero y = true -> unsigned y.
Proof.
  destruct y as [[|] | [|] | | [|] m e]; cbn; intros H;
    try reflexivity; try exact I; discriminate H.
Qed.

Lemma py_int_nonneg (x : float) : unsigned x -> 0 <= py_int x.
Proof.
  destruct x as [s | s | | s m e]; cbn [unsigned py_int]; try lia.
  intros ->. destruct e as [| p | p].
  - rewrite Z.shiftl_0_r. lia.
  - apply Z.shiftl_nonneg. lia.
  - apply Z.shiftr_nonneg. lia.
Qed.

Lemma final_wpm_nonneg (mode : option Mode) (chars : Z) (elapsed : Q) :
  0 <= chars -> 0 <= final_wpm mode chars elapsed.
Proof.
  intros Hc. unfold final_wpm.
  destruct (float_lt float_zero (final_minutes mode elapsed)) eqn:Hm; [| lia].
  apply py_int_nonneg, truediv_unsigned; [| apply float_lt_unsigned, Hm].
  assert (H5 : unsigned (chars_words chars)).
  { apply truediv_unsigned; apply float_of_int_unsigned; lia. }
  destruct mode as [[| |] |]; cbn [final_words]; try exact H5.
  apply float_of_int_unsigned. lia.
Qed.

(** ** The handlers keep the bounds *)

Lemma complete_game_grows e g : grows g (complete_game e g).
Proof.
  pose proof (complete_game_result e g) as Hr.
  intros [(Hm & Hla & Hla' & Ha & Ha' & Hw) [Hb Hs]].
  pose proof (f_equal mistakes Hr) as E1.
  pose proof (f_equal total_chars_typed Hr) as E2.
  pose proof (f_equal current_streak Hr) as E3.
  pose proof (f_equal best_streak Hr) as E4.
  pose proof (f_equal live_wpm Hr) as E5.
  pose proof (f_equal live_accuracy Hr) as E6.
  fields_in E1. fields_in E2. fields_in E3. fields_in E4. fields_in E5.
  fields_in E6.
  assert (Hacc : (0 <= accuracy (complete_game e g))%Q
                 /\ (accuracy (complete_game e g) <= 100)%Q).
  { clear Hr E1 E2 E3 E4 E5 E6. unfold complete_game.
    set (g1 := if negb (String.eqb _ _) then _ else _).
    set (g2 := if Qlt_le_dec 0 (start_time g1) then _ else _).
    assert (Hc : total_chars_typed g2 = total_chars_typed g
                 /\ mistakes g2 = mistakes g).
    { subst g2 g1. repeat case_match; split; reflexivity. }
    destruct Hc as [Hc1 Hc2].
    set (g3 := if 0 <? total_chars_typed g2 then _ else _).
    assert (H3 : (0 <= accuracy g3)%Q /\ (accuracy g3 <= 100)%Q).
    { subst g3. destruct (0 <? total_chars_typed g2) eqn:Hpos; fields.
      - apply accuracy_of_bounds; lia.
      - split; discriminate. }
    set (g4 := match current_user g3 with None => _ | Some _ => _ end).
    assert (H4 : accuracy g4 = accuracy g3).
    { subst g4. destruct (current_user g3); [reflexivity |].
      pose proof (f_equal accuracy (prompt_username_store e g3)) as E.
      fields_in E. exact E. }
    assert (H5 : accuracy (if truthy (current_user g4)
                           then update_user_stats e
                                  (final_wpm (game_mode g3)
                                     (total_chars_typed g3) (elapsed_time g3))
                                  (accuracy g4) g4
                           else g4) = accuracy g3).
    { destruct (truthy (current_user g4)); [| exact H4].
      pose proof (f_equal accuracy
                    (update_user_stats_store e
                       (final_wpm (game_mode g3) (total_chars_typed g3)
                          (elapsed_time g3)) (accuracy g4) g4)) as E.
      fields_in E. rewrite E. exact H4. }
    rewrite H5. exact H3. }
  unfold sound, metrics_ok, streak_ok.
  rewrite E1, E2, E3, E4, E5, E6. repeat split; try tauto; lia.
Qed.

Lemma check_line_completion_grows e g g' :
  check_line_completion e g = Some g' -> grows g g'.
Proof.
  unfold check_line_completion, next_paragraph. intros H.
  repeat case_match; simplify_option_eq;
    first [ apply core_grows; reflexivity
          | eapply grows_trans; [| apply complete_game_grows];
            apply core_grows; reflexivity ].
Qed.

Lemma start_timer_core e g : core (start_timer e g) = core g.
Proof. unfold start_timer. repeat case_match; reflexivity. Qed.

Lemma score_character_grows g :
  mistakes g < total_chars_typed g -> grows g (score_character g).
Proof.
  unfold grows, sound, metrics_ok, streak_ok, score_character.
  intros Hlt [(Hm & Hla & Hla' & Ha & Ha' & Hw) [Hb Hs]].
  repeat case_match; tests; fields; repeat split; try assumption; lia.
Qed.

Lemma update_live_stats_grows e g : grows g (update_live_stats e g).
Proof.
  unfold grows, sound, metrics_ok, streak_ok, update_live_stats.
  intros [(Hm & Hla & Hla' & Ha & Ha' & Hw) [Hb Hs]].
  repeat case_match; tests; fields; repeat split; try assumption; try lia;
    try (apply accuracy_of_bounds; lia);
    try (apply live_wpm_nonneg; [lia | assumption]).
Qed.

Lemma handle_character_grows e c g g' :
  handle_character e c g = Some g' -> grows g g'.
Proof.
  unfold handle_character. intros H.
  assert (Ht : grows g (start_timer e g))
    by (apply core_grows, start_timer_core).
  set (g1 := set_total_chars_typed _ _) in H.
  assert (H1 : grows (start_timer e g) g1).
  { unfold grows, sound, metrics_ok, streak_ok. subst g1. fields.
    intros [(Hm & Hla & Hla' & Ha & Ha' & Hw) [Hb Hs]].
    repeat split; try assumption; lia. }
  assert (H2 : sound g -> mistakes g1 < total_chars_typed g1).
  { intros [(Hm & _) _]. subst g1. fields.
    pose proof (start_timer_core e g) as Hc. unfold core in Hc.
    injection Hc as -> -> _ _ _ _ _. lia. }
  repeat case_match; simplify_eq.
  - apply grows_refl.
  - eapply grows_trans; [exact Ht |].
    eapply check_line_completion_grows; eassumption.
  - eapply grows_trans; [exact Ht |].
    eapply check_line_completion_grows; eassumption.
  - intros Hs.
    destruct (Ht Hs) as [Hs0 Hb0]. destruct (H1 Hs0) as [Hs1 Hb1].
    destruct (score_character_grows g1 (H2 Hs) Hs1) as [Hs2 Hb2].
    destruct (update_live_stats_grows e _ Hs2) as [Hs3 Hb3].
    destruct (check_line_completion_grows _ _ _ H Hs3) as [Hs4 Hb4].
    split; [exact Hs4 | lia].
Qed.

Lemma update_countdown_grows e g : grows g (update_countdown e g).
Proof.
  unfold update_countdown.
  repeat case_match;
    first [ apply core_grows; reflexivity
          | eapply grows_trans; [| apply complete_game_grows];
            apply core_grows; reflexivity ].
Qed.

Lemma update_timer_core e g : core (update_timer e g) = core g.
Proof. unfold update_timer. repeat case_match; reflexivity. Qed.

Lemma show_user_menu_core e g : core (show_user_menu e g) = core g.
Proof.
  unfold show_user_menu, save_user_data. repeat case_match; reflexivity.
Qed.

Lemma reset_session_sound g : sound (reset_session g).
Proof.
  unfold sound, metrics_ok, streak_ok, reset_session. fields.
  repeat split; try lia; discriminate.
Qed.

Lemma start_mode_sound mode e g g' :
  start_mode mode e g = Some g' -> sound g'.
Proof.
  unfold start_mode. intros H. simplify_option_eq. apply reset_session_sound.
Qed.

Lemma restart_grows g g' : restart g = Some g' -> sound g -> sound g'.
Proof.
  unfold restart. intros H Hs.
  destruct (game_mode g); simplify_option_eq;
    [apply reset_session_sound | exact Hs].
Qed.

Lemma on_key_sound key e g g' :
  on_key key e g = Some g' -> sound g ->
  sound g' /\ (resets_session (Key key) g = false ->
               best_streak g <= best_streak g').
Proof.
  unfold on_key, resets_session, new_paragraph. intros H Hs.
  repeat case_match; simplify_eq; cbn [orb];
    first
      [ (* the session goes on *)
        lazymatch goal with
        | Hs' : sound ?g1 |- sound ?g0 /\ _ =>
            let Hg := fresh "Hg" in
            assert (Hg : grows g1 g0)
              by first
                   [ apply grows_refl
                   | apply core_grows;
                     first [reflexivity | apply show_user_menu_core]
                   | eapply handle_character_grows; eassumption
                   | eapply grows_trans;
                     [| eapply handle_character_grows; eassumption];
                     apply core_grows; reflexivity ];
            destruct (Hg Hs'); split; [assumption | intros _; assumption]
        end
      | (* a session is created or discarded *)
        split;
        [ first [ eapply start_mode_sound; eassumption
                | eapply restart_grows; eassumption
                | apply reset_session_sound ]
        | intros Hf; first [discriminate | congruence] ] ].
Qed.

Lemma step_sound ev e g g' :
  step ev e g = Some g' -> sound g ->
  sound g' /\ (resets_session ev g = false ->
               best_streak g <= best_streak g').
Proof.
  destruct ev as [key | t]; cbn [step].
  - apply on_key_sound.
  - intros H Hs.
    assert (Hg : grows g g').
    { repeat case_match; simplify_eq;
        first [ apply grows_refl | apply update_countdown_grows
              | apply core_grows, update_timer_core ]. }
    destruct (Hg Hs). split; [assumption | intros _; assumption].
Qed.

Lemma mounted_sound ps user users disk : sound (mounted ps user users disk).
Proof.
  unfold sound, metrics_ok, streak_ok, mounted. fields.
  repeat split; try lia; discriminate.
Qed.

Lemma reachable_sound g : reachable g -> sound g.
Proof.
  induction 1 as [ps user users disk | g ev e g' _ IH Hstep].
  - apply mounted_sound.
  - apply (step_sound ev e g g' Hstep IH).
Qed.

Lemma reachable_run evs g g' :
  reachable g -> run evs g = Some g' -> reachable g'.
Proof.
  revert g. induction evs as [| [ev e] evs IH]; intros g Hg Hrun.
  - cbn in Hrun. now simplify_eq.
  - cbn [run] in Hrun.
    destruct (step ev e g) as [g1 |] eqn:Hstep; [| discriminate].
    cbn in Hrun. apply (IH g1); [| exact Hrun].
    exact (reachable_step g ev e g1 Hg Hstep).
Qed.

(** ** The sample session is reachable *)

Lemma sample_chosen_step :
  step (Key "1") (at_time 100 0) sample_start = Some sample_chosen.
Proof. vm_compute. reflexivity. Qed.

Lemma sample_typing_run : run sample_keys sample_chosen = Some sample_typing.
Proof. vm_compute. reflexivity. Qed.

Lemma sample_chosen_reachable : reachable sample_chosen.
Proof.
  apply (reachable_step sample_start (Key "1") (at_time 100 0)).
  - apply reachable_mounted.
  - exact sample_chosen_step.
Defined.

Lemma sample_typing_reachable : reachable sample_typing.
Proof.
  apply (reachable_run sample_keys sample_chosen).
  - exact sample_chosen_reachable.
  - exact sample_typing_run.
Defined.

Lemma sample_typing_state : game_state sample_typing = IN_TEST.
Proof. vm_compute. reflexivity. Qed.

(** ** Metrics bounds *)

(** C9. In every reachable state the number of mistakes is between 0 and
    the number of characters typed, live and final accuracy lie in
    [0, 100], live WPM is not negative, and the final WPM computed from
    the state is not negative whatever the elapsed time; the bound on the
    mistakes is kept by every event (key press or timer tick, resets
    included). *)
Theorem metrics_bounds (g : TypingGame) :
  reachable g ->
  0 <= mistakes g <= total_chars_typed g
  /\ (0 <= live_accuracy g)%Q /\ (live_accuracy g <= 100)%Q
  /\ (0 <= accuracy g)%Q /\ (accuracy g <= 100)%Q
  /\ (0 <= live_wpm g)%Q
  /\ (forall elapsed,
        0 <= final_wpm (game_mode g) (total_chars_typed g) elapsed)
  /\ (forall ev e g',
        step ev e g = Some g' -> 0 <= mistakes g' <= total_chars_typed g').
Proof.
  intros Hr. pose proof (reachable_sound g Hr) as [Hm Hs].
  pose proof Hm as (Hc & Hla & Hla' & Ha & Ha' & Hw).
  repeat split; try assumption; try lia.
  - intros elapsed. apply final_wpm_nonneg. lia.
  - destruct (step_sound ev e g g' H (conj Hm Hs)) as [[[? _] _] _]. lia.
  - destruct (step_sound ev e g g' H (conj Hm Hs)) as [[[? _] _] _]. lia.
Qed.

Lemma metrics_bounds_witness :
  0 <= mistakes sample_typing <= total_chars_typed sample_typing
  /\ (accuracy sample_typing <= 100)%Q.
Proof.
  destruct (metrics_bounds sample_typing sample_typing_reachable)
    as (Hm & _ & _ & _ & Ha & _).
  exact (conj Hm Ha).
Defined.

(** ** Streaks *)

(** C8. Within one session, that is along any run from a reachable state
    in which no event starts a new session or returns to the mode
    selection, [best_streak] does not decrease, and after every event
    [best_streak] is at least [current_streak] (this part for every event,
    resets included). *)
Theorem streak_monotone (g : TypingGame) (evs : list (Event * Env))
    (g' : TypingGame) :
  reachable g ->
  run evs g = Some g' ->
  current_streak g' <= best_streak g'
  /\ (same_session evs g = true -> best_streak g <= best_streak g').
Proof.
  intros Hr Hrun. split.
  - apply (reachable_sound g' (reachable_run evs g g' Hr Hrun)).
  - revert g Hr Hrun.
    induction evs as [| [ev e] evs IH]; intros g Hr Hrun Hsame.
    + cbn in Hrun. simplify_eq. lia.
    + cbn [run] in Hrun. cbn [same_session] in Hsame.
      destruct (step ev e g) as [g1 |] eqn:Hstep; [| discriminate].
      cbn in Hrun. apply andb_prop in Hsame as [Hno Hsame].
      apply negb_true_iff in Hno.
      destruct (step_sound ev e g g1 Hstep (reachable_sound g Hr)) as [_ Hb].
      specialize (Hb Hno).
      specialize (IH g1 (reachable_step g ev e g1 Hr Hstep) Hrun Hsame). lia.
Qed.

Lemma streak_monotone_witness :
  current_streak sample_typing <= best_streak sample_typing
  /\ best_streak sample_chosen <= best_streak sample_typing.
Proof.
  destruct (streak_monotone sample_chosen sample_keys sample_typing
              sample_chosen_reachable sample_typing_run) as [Hc Hb].
  split; [exact Hc |]. apply Hb. vm_compute. reflexivity.
Defined.

(** ** The user store at completion *)

Lemma update_user_stats_unset e wpm acc g :
  truthy (current_user g) = false -> update_user_stats e wpm acc g = g.
Proof. unfold update_user_stats. now intros ->. Qed.

Lemma complete_game_store e g :
  current_user g = None -> truthy (prompt e) = false ->
  store (complete_game e g) = store g.
Proof.
  intros Hu Hp. unfold complete_game. cbv zeta.
  set (g3 := if 0 <? _ then _ else _).
  assert (H3 : store g3 = store g)
    by (subst g3; repeat case_match; reflexivity).
  assert (Hu3 : current_user g3 = None)
    by (unfold store in H3; injection H3 as -> _ _; exact Hu).
  rewrite Hu3. unfold prompt_username. rewrite Hp, Hu3. exact H3.
Qed.

Lemma check_line_completion_store e g g' :
  current_user g = None -> truthy (prompt e) = false ->
  check_line_completion e g = Some g' -> store g' = store g.
Proof.
  intros Hu Hp. unfold check_line_completion, next_paragraph. intros H.
  repeat case_match; simplify_option_eq;
    first [ reflexivity
          | rewrite complete_game_store by (fields; assumption);
            reflexivity ].
Qed.

Lemma start_timer_store e g : store (start_timer e g) = store g.
Proof. unfold start_timer. repeat case_match; reflexivity. Qed.

Lemma handle_character_store e c g g' :
  current_user g = None -> truthy (prompt e) = false ->
  handle_character e c g = Some g' -> store g' = store g.
Proof.
  intros Hu Hp. unfold handle_character. intros H.
  assert (Hu' : current_user (start_timer e g) = None).
  { pose proof (start_timer_store e g) as Ht. unfold store in Ht.
    injection Ht as -> _ _. exact Hu. }
  repeat case_match.
  - now injection H as <-.
  - rewrite <- (start_timer_store e g).
    eapply check_line_completion_store; eassumption.
  - rewrite <- (start_timer_store e g).
    eapply check_line_completion_store; eassumption.
  - rewrite <- (start_timer_store e g).
    erewrite check_line_completion_store; [| | exact Hp | exact H].
    + unfold update_live_stats, score_character.
      repeat case_match; reflexivity.
    + unfold update_live_stats, score_character.
      repeat case_match; fields; exact Hu'.
Qed.

Lemma update_countdown_store e g :
  current_user g = None -> truthy (prompt e) = false ->
  store (update_countdown e g) = store g.
Proof.
  intros Hu Hp. unfold update_countdown.
  repeat case_match; try reflexivity;
    rewrite complete_game_store by (fields; assumption); reflexivity.
Qed.

(** C10. Completion without a user. [update_user_stats] returns the
    application object untouched when [current_user] is unset. When a test
    completes while [current_user] is [None] and the username dialog is
    dismissed without a name, [complete_game] leaves [user_data], the file
    and [current_user] as they were, and so does every key typed in
    [READY] or [IN_TEST] and every timer tick, whether or not it completes
    the test. With a current user the aggregate is updated: one more test,
    both sums increased, both bests raised, and the dictionary written to
    the file when it can be. *)
Theorem completion_without_user (e : Env) (g : TypingGame) :
  (forall wpm acc,
      truthy (current_user g) = false -> update_user_stats e wpm acc g = g)
  /\ (current_user g = None -> truthy (prompt e) = false ->
      user_data (complete_game e g) = user_data g
      /\ users_json (complete_game e g) = users_json g
      /\ current_user (complete_game e g) = None)
  /\ (forall ev g',
        current_user g = None -> truthy (prompt e) = false ->
        (game_state g = READY \/ game_state g = IN_TEST
         \/ exists t, ev = Tick t) ->
        step ev e g = Some g' ->
        user_data g' = user_data g /\ users_json g' = users_json g)
  /\ (forall name u wpm acc,
        current_user g = Some name -> name <> EmptyString ->
        user_data g !! name = Some u ->
        let g' := update_user_stats e wpm acc g in
        user_data g' =
          <[name := mkUserStats (tests_completed u + 1)
                      (total_wpm u + inject_Z wpm)%Q
                      (if best_wpm u <? wpm then wpm else best_wpm u)
                      (total_accuracy u + acc)%Q
                      (if Qlt_le_dec (best_accuracy u) acc
                       then acc else best_accuracy u)]> (user_data g)
        /\ (io_ok e = true ->
            users_json g' = Some (Some name, user_data g'))).
Proof.
  split; [intros wpm acc; apply update_user_stats_unset |].
  split.
  { intros Hu Hp. pose proof (complete_game_store e g Hu Hp) as Hs.
    unfold store in Hs. injection Hs as -> -> ->. rewrite Hu. auto. }
  split.
  { intros ev g' Hu Hp Hst Hstep.
    assert (Hs : store g' = store g).
    { destruct ev as [key | t]; cbn [step] in Hstep.
      - destruct Hst as [Hst | [Hst | [t Ht]]]; [| | discriminate];
          unfold on_key in Hstep; rewrite Hst in Hstep;
          repeat case_match; simplify_eq; try reflexivity.
        + erewrite handle_character_store; [| | exact Hp | exact Hstep];
            [reflexivity | exact Hu].
        + eapply handle_character_store; eassumption.
      - repeat case_match; simplify_eq; try reflexivity.
        + apply update_countdown_store; assumption.
        + unfold update_timer. repeat case_match; reflexivity. }
    unfold store in Hs. injection Hs as _ -> ->. auto. }
  intros name u wpm acc Hu Hne Hl. cbn zeta.
  assert (Ht : truthy (current_user g) = true).
  { rewrite Hu. cbn [truthy]. apply negb_true_iff, String.eqb_neq, Hne. }
  unfold update_user_stats, save_user_data.
  rewrite Ht, Hu. cbn [negb]. rewrite Hl, Hl.
  destruct (io_ok e); fields; split; try reflexivity; try discriminate.
  intros _. rewrite Hu. reflexivity.
Qed.

Lemma completion_without_user_witness :
  user_data (complete_game (at_time 104 0)
               (set_current_user None sample_typing))
  = user_data (set_current_user None sample_typing).
Proof.
  destruct (completion_without_user (at_time 104 0)
              (set_current_user None sample_typing)) as (_ & H & _).
  destruct (H eq_refl eq_refl) as [Hd _]. exact Hd.
Defined.

(** ** Cancelling a running test *)

(** [escape] in [IN_TEST] runs [cancel_test], which assigns four
    attributes: the state becomes [MENU], [typed_text] is emptied and
    [start_time] and [elapsed_time] are set to 0. Every other attribute
    keeps its value. *)
Lemma escape_in_test (e : Env) (g : TypingGame) :
  game_state g = IN_TEST ->
  on_key "escape" e g = Some (cancel_test g)
  /\ game_mode (cancel_test g) = game_mode g
  /\ total_chars_typed (cancel_test g) = total_chars_typed g
  /\ mistakes (cancel_test g) = mistakes g
  /\ total_words_typed (cancel_test g) = total_words_typed g
  /\ lines_completed (cancel_test g) = lines_completed g
  /\ current_streak (cancel_test g) = current_streak g
  /\ best_streak (cancel_test g) = best_streak g
  /\ mistake_positions (cancel_test g) = mistake_positions g
  /\ completed_lines_history (cancel_test g) = completed_lines_history g
  /\ timers (cancel_test g) = timers g.
Proof.
  intros Hstate. unfold on_key. rewrite Hstate.
  cbn [String.eqb Ascii.eqb Bool.eqb]. repeat split; reflexivity.
Qed.

(** C3. [escape] in [IN_TEST] does not discard the session. In the
    sample session one line has been completed and one mistake made in
    mode ["30sec"]; [escape] leads to [MENU] with the mode still chosen
    and with the two characters, the mistake, the streak, the marked
    offset and the history entry still there, where [return_to_menu]
    on the same state clears them all. The test that follows is scored
    with them: after [enter], one correct [b] and the expiry of the
    countdown, the result counts 3 characters and 1 mistake, shows the
    cancelled line in its history, and is stored for the user with an
    accuracy of 200/3; the countdown callback is registered twice. *)
Theorem cancel_keeps_session :
  game_state sample_typing = IN_TEST
  /\ on_key "escape" (at_time 104 0) sample_typing = Some sample_cancelled
  /\ game_state sample_cancelled = MENU
  /\ game_mode sample_cancelled = Some Mode30sec
  /\ total_chars_typed sample_cancelled = 2
  /\ mistakes sample_cancelled = 1
  /\ total_words_typed sample_cancelled = 1
  /\ best_streak sample_cancelled = 1
  /\ elements (mistake_positions sample_cancelled) = [0%nat]
  /\ completed_lines_history sample_cancelled
     = [("a"%string, "a"%string, ∅)]
  /\ ~ session_discarded sample_cancelled
  /\ session_discarded (return_to_menu sample_typing)
  /\ run sample_again sample_cancelled = Some sample_rescored
  /\ game_state sample_rescored = COMPLETE
  /\ total_chars_typed sample_rescored = 3
  /\ mistakes sample_rescored = 1
  /\ accuracy sample_rescored = (200 # 3)%Q
  /\ length (completed_lines_history sample_rescored) = 2%nat
  /\ timers sample_rescored = [TimerCountdown; TimerCountdown]
  /\ (tests_completed <$> user_data sample_rescored !! "bob"%string)
     = Some 1
  /\ (total_accuracy <$> user_data sample_rescored !! "bob"%string)
     = Some (200 # 3)%Q.
Proof.
  repeat (split; [vm_compute; reflexivity |]).
  split.
  { intros [Hmode _]. vm_compute in Hmode. discriminate Hmode. }
  split.
  { unfold session_discarded.
    repeat (split; [vm_compute; reflexivity |]).
    vm_compute. reflexivity. }
  repeat (split; [vm_compute; reflexivity |]).
  vm_compute. reflexivity.
Qed.

(** ** Mistakes are counted once per offset *)

Lemma complete_game_marks e g : marks (complete_game e g) = marks g.
Proof.
  pose proof (complete_game_result e g) as Hr. unfold marks.
  pose proof (f_equal mistakes Hr) as E1.
  pose proof (f_equal mistake_positions Hr) as E2.
  pose proof (f_equal lines_completed Hr) as E3.
  fields_in E1. fields_in E2. fields_in E3. now rewrite E1, E2, E3.
Qed.

(** [check_line_completion] either finds the line unfinished and does
    nothing, or counts one more completed line. *)
Lemma check_line_completion_cases e g g' :
  check_line_completion e g = Some g' ->
  g' = g \/ lines_completed g' = lines_completed g + 1.
Proof.
  unfold check_line_completion, next_paragraph. intros H.
  repeat case_match; simplify_option_eq;
    first [ left; reflexivity
          | right; reflexivity
          | right;
            match goal with
            | |- lines_completed (complete_game ?e ?g0) = _ =>
                pose proof (complete_game_marks e g0) as Hm;
                unfold marks in Hm; injection Hm as _ _ ->; reflexivity
            end ].
Qed.

Lemma start_timer_marks e g :
  marks (start_timer e g) = marks g
  /\ typed_text (start_timer e g) = typed_text g.
Proof. unfold start_timer. repeat case_match; split; reflexivity. Qed.

Lemma update_live_stats_marks e g : marks (update_live_stats e g) = marks g.
Proof. unfold update_live_stats. repeat case_match; reflexivity. Qed.

Lemma marked_same g g' : marks g' = marks g -> marked g g'.
Proof.
  unfold marks, marked. intros H. injection H as -> -> _. now left.
Qed.

Lemma score_character_marked g c :
  let g1 :=
    set_total_chars_typed (total_chars_typed g + 1)
      (set_typed_text (typed_text g +:+ String c EmptyString) g) in
  marked g (score_character g1)
  /\ lines_completed (score_character g1) = lines_completed g.
Proof.
  cbv zeta. unfold score_character, marked. fields.
  rewrite length_append. cbn [String.length].
  replace (String.length (typed_text g) + 1 - 1)%nat
    with (String.length (typed_text g)) by lia.
  repeat case_match; fields; split; try reflexivity.
  - left. split; reflexivity.
  - right. split; [reflexivity |]. split; [| reflexivity].
    match goal with H : bool_decide _ = false |- _ =>
      apply bool_decide_eq_false in H; exact H end.
  - left. split; reflexivity.
  - left. split; reflexivity.
Qed.

Lemma handle_character_marked e c g g' :
  handle_character e c g = Some g' ->
  lines_completed g' = lines_completed g -> marked g g'.
Proof.
  unfold handle_character. intros H Hl.
  destruct (start_timer_marks e g) as [Ht Hty].
  assert (Hover : forall g0,
            check_line_completion e (start_timer e g) = Some g0 ->
            lines_completed g0 = lines_completed g -> marked g g0).
  { intros g0 Hc Hl0.
    destruct (check_line_completion_cases _ _ _ Hc) as [-> | Hinc].
    - apply marked_same, Ht.
    - unfold marks in Ht. injection Ht as _ _ Hl1. lia. }
  repeat case_match.
  - injection H as <-. now left.
  - apply Hover; assumption.
  - apply Hover; assumption.
  - fields_in H.
    destruct (score_character_marked (start_timer e g) c) as [Hm Hl1].
    cbv zeta in Hm, Hl1.
    pose proof (update_live_stats_marks e
                  (score_character
                     (set_total_chars_typed
                        (total_chars_typed (start_timer e g) + 1)
                        (set_typed_text
                           (typed_text (start_timer e g)
                              +:+ String c EmptyString)
                           (start_timer e g))))) as Hu.
    unfold marks in Hu, Ht. injection Hu as Hu1 Hu2 Hu3.
    injection Ht as Ht1 Ht2 Ht3.
    destruct (check_line_completion_cases _ _ _ H) as [-> | Hinc]; [| lia].
    unfold marked in *. rewrite Hu1, Hu2, <- Ht1, <- Ht2, <- Hty. exact Hm.
Qed.

Lemma step_marked ev e g g' :
  game_state g = IN_TEST -> step ev e g = Some g' ->
  lines_completed g' = lines_completed g -> marked g g'.
Proof.
  intros Hstate Hstep Hl. destruct ev as [key | t]; cbn [step] in Hstep.
  - unfold on_key in Hstep. rewrite Hstate in Hstep.
    repeat case_match; simplify_eq;
      first [ apply marked_same; reflexivity
            | eapply handle_character_marked; eassumption ].
  - repeat case_match; simplify_eq; apply marked_same;
      first [ reflexivity
            | unfold update_timer; repeat case_match; reflexivity
            | unfold update_countdown; repeat case_match;
              first [ reflexivity
                    | rewrite complete_game_marks; reflexivity ] ].
Qed.

(** C4. Within one line instance, whatever is typed, deleted with
    backspace and retyped, [mistakes] is raised at most once with the
    cursor at offset [k], and not at all if [k] is already marked; an
    offset that caused a rise is in [mistake_positions] afterwards, a
    marked offset is never unmarked (so retyping correctly does not remove
    it), and [mistakes] grows by exactly the number of offsets newly put
    into the set [mistake_positions], in which an offset occurs once. *)
Theorem mistake_counted_once (k : nat) (evs : list (Event * Env))
    (g g' : TypingGame) :
  same_line evs g = true ->
  run evs g = Some g' ->
  (mistake_hits k evs g <= 1)%nat
  /\ (k ∈ mistake_positions g -> mistake_hits k evs g = 0%nat)
  /\ (mistake_hits k evs g = 1%nat -> k ∈ mistake_positions g')
  /\ mistake_positions g ⊆ mistake_positions g'
  /\ mistakes g' - mistakes g
     = Z.of_nat (size (mistake_positions g'))
       - Z.of_nat (size (mistake_positions g)).
Proof.
  revert g. induction evs as [| [ev e] evs IH]; intros g Hsame Hrun.
  - cbn in Hrun. simplify_eq. cbn. repeat split; try lia; try done.
  - cbn [run] in Hrun. cbn [same_line] in Hsame. cbn [mistake_hits].
    destruct (step ev e g) as [g1 |] eqn:Hstep; [| discriminate].
    cbn in Hrun.
    apply andb_prop in Hsame as [Hsame Hrest].
    apply andb_prop in Hsame as [Hstate Hline].
    apply bool_decide_eq_true in Hstate, Hline.
    destruct (IH g1 Hrest Hrun) as (IH1 & IH2 & IH3 & IH4 & IH5).
    destruct (step_marked ev e g g1 Hstate Hstep Hline)
      as [[Hm Hp] | (Hm & Hnew & Hp)].
    + rewrite bool_decide_false by (intros [_ Hne]; congruence).
      rewrite Hp in *. cbn [Nat.add].
      repeat split; try assumption. lia.
    + assert (Hsub : mistake_positions g ⊆ mistake_positions g1)
        by (rewrite Hp; apply union_subseteq_r).
      assert (Hsize : size (mistake_positions g1)
                      = S (size (mistake_positions g))).
      { rewrite Hp, size_union by (apply disjoint_singleton_l; exact Hnew).
        now rewrite size_singleton. }
      destruct (decide (String.length (typed_text g) = k)) as [Hk | Hk].
      * rewrite bool_decide_true by (split; [exact Hk | lia]).
        assert (Hin : k ∈ mistake_positions g1).
        { rewrite Hp. apply elem_of_union_l, elem_of_singleton.
          symmetry. exact Hk. }
        rewrite (IH2 Hin). cbn [Nat.add].
        repeat split; try lia.
        -- intros Hk'. subst k. contradiction.
        -- intros _. apply IH4, Hin.
        -- etransitivity; [exact Hsub | exact IH4].
      * rewrite bool_decide_false by (intros [Hk' _]; contradiction).
        cbn [Nat.add].
        repeat split; try assumption; try lia.
        -- intros Hin. apply IH2, Hsub, Hin.
        -- etransitivity; [exact Hsub | exact IH4].
Qed.

Lemma sample_retype_run : run sample_retype sample_line = Some sample_retyped.
Proof. vm_compute. reflexivity. Qed.

Lemma sample_retype_same_line : same_line sample_retype sample_line = true.
Proof. vm_compute. reflexivity. Qed.

Lemma mistake_counted_once_witness :
  (mistake_hits 0 sample_retype sample_line <= 1)%nat
  /\ mistake_positions sample_line ⊆ mistake_positions sample_retyped.
Proof.
  destruct (mistake_counted_once 0 sample_retype sample_line sample_retyped
              sample_retype_same_line sample_retype_run)
    as (H1 & _ & _ & H4 & _).
  exact (conj H1 H4).
Defined.

(** ** Final words per minute *)

Lemma update_user_stats_entry e wpm acc g name u :
  current_user g = Some name -> name <> EmptyString ->
  user_data g !! name = Some u ->
  update_user_stats e wpm acc g =
    save_user_data e
      (set_user_data
         (<[name := mkUserStats (tests_completed u + 1)
                      (total_wpm u + inject_Z wpm)%Q
                      (if best_wpm u <? wpm then wpm else best_wpm u)
                      (total_accuracy u + acc)%Q
                      (if Qlt_le_dec (best_accuracy u) acc
                       then acc else best_accuracy u)]> (user_data g)) g).
Proof.
  intros Hu Hne Hl.
  assert (Ht : truthy (current_user g) = true).
  { rewrite Hu. cbn [truthy]. apply negb_true_iff, String.eqb_neq, Hne. }
  unfold update_user_stats.
  rewrite Ht, Hu. cbn [negb]. rewrite Hl, Hl. reflexivity.
Qed.

Lemma save_user_data_users e g : user_data (save_user_data e g) = user_data g.
Proof. unfold save_user_data. destruct (io_ok e); reflexivity. Qed.

(** The test [complete_game] hands to the store: the final WPM of the
    mode, of the characters typed and of the elapsed time it has just
    computed. *)
Lemma complete_game_records e g name u :
  current_user g = Some name -> name <> EmptyString ->
  user_data g !! name = Some u ->
  exists u',
    user_data (complete_game e g) !! name = Some u'
    /\ tests_completed u' = tests_completed u + 1
    /\ total_wpm u' =
         (total_wpm u
          + inject_Z (final_wpm (game_mode g) (total_chars_typed g)
                        (final_elapsed e g)))%Q.
Proof.
  intros Hu Hne Hl. unfold complete_game. cbv zeta.
  set (g3 := if 0 <? _ then _ else _).
  assert (H3 : current_user g3 = Some name /\ user_data g3 = user_data g
               /\ game_mode g3 = game_mode g
               /\ total_chars_typed g3 = total_chars_typed g
               /\ elapsed_time g3 = final_elapsed e g).
  { subst g3. unfold final_elapsed.
    destruct (negb _); fields; repeat case_match; fields;
      rewrite ?Hu; repeat split; reflexivity. }
  destruct H3 as (Hu3 & Hd3 & Hm3 & Hc3 & He3).
  assert (Ht : truthy (Some name) = true).
  { cbn [truthy]. apply negb_true_iff, String.eqb_neq, Hne. }
  rewrite Hu3. cbv beta iota. rewrite Hu3, Ht.
  rewrite (update_user_stats_entry e _ _ g3 name u Hu3 Hne)
    by (rewrite Hd3; exact Hl).
  rewrite save_user_data_users. fields. rewrite lookup_insert_eq.
  eexists. split; [reflexivity |]. cbn [tests_completed total_wpm].
  rewrite Hm3, Hc3, He3. split; reflexivity.
Qed.

(** C5. The final WPM of [complete_game] by mode, in the binary64
    arithmetic of Python floats. In ["30sec"] mode it is
    [int((chars / 5) / 0.5)], whatever the elapsed time. In ["30word"]
    mode it is [int(30 / (elapsed / 60))] when the minutes [elapsed / 60]
    are positive and 0 when they are not. In ["unlimited"] mode it is
    [int((chars / 5) / (elapsed / 60))] when the elapsed time and the
    minutes are positive, 0 when only the elapsed time is, and
    [int((chars / 5) / 1)] when the elapsed time is not positive. [int]
    truncates. This is the number [complete_game] adds to the user's
    [total_wpm]. *)
Theorem final_wpm_by_mode (chars : Z) (elapsed : Q) :
  final_wpm (Some Mode30sec) chars elapsed
    = py_int (truediv (chars_words chars) float_half)
  /\ (float_lt float_zero (elapsed_minutes elapsed) = true ->
      final_wpm (Some Mode30word) chars elapsed
        = py_int (truediv (float_of_int 30) (elapsed_minutes elapsed)))
  /\ (float_lt float_zero (elapsed_minutes elapsed) = false ->
      final_wpm (Some Mode30word) chars elapsed = 0)
  /\ (float_lt float_zero (float_of_Q elapsed) = true ->
      float_lt float_zero (elapsed_minutes elapsed) = true ->
      final_wpm (Some ModeUnlimited) chars elapsed
        = py_int (truediv (chars_words chars) (elapsed_minutes elapsed)))
  /\ (float_lt float_zero (float_of_Q elapsed) = true ->
      float_lt float_zero (elapsed_minutes elapsed) = false ->
      final_wpm (Some ModeUnlimited) chars elapsed = 0)
  /\ (float_lt float_zero (float_of_Q elapsed) = false ->
      final_wpm (Some ModeUnlimited) chars elapsed
        = py_int (truediv (chars_words chars) (float_of_int 1)))
  /\ (forall e g name u,
        current_user g = Some name -> name <> EmptyString ->
        user_data g !! name = Some u ->
        exists u',
          user_data (complete_game e g) !! name = Some u'
          /\ total_wpm u' =
               (total_wpm u
                + inject_Z (final_wpm (game_mode g) (total_chars_typed g)
                              (final_elapsed e g)))%Q).
Proof.
  unfold final_wpm, final_minutes, final_words.
  split; [reflexivity |].
  split; [intros H; rewrite H; reflexivity |].
  split; [intros H; rewrite H; reflexivity |].
  split; [intros H1 H2; rewrite H1, H2; reflexivity |].
  split; [intros H1 H2; rewrite H1, H2; reflexivity |].
  split; [intros H1; rewrite H1; reflexivity |].
  intros e g name u Hu Hne Hl.
  destruct (complete_game_records e g name u Hu Hne Hl) as (u' & H1 & _ & H2).
  exists u'. split; assumption.
Qed.

(** Three quarters of a minute for 30 words; 3 characters in 3.0
    seconds, where the double quotient [0.6 / 0.05] is just below 12;
    and no elapsed time at all. *)
Lemma final_wpm_by_mode_witness :
  final_wpm (Some Mode30word) 150 45 = 40
  /\ final_wpm (Some ModeUnlimited) 3 3 = 11
  /\ final_wpm (Some ModeUnlimited) 150 0 = 30.
Proof.
  destruct (final_wpm_by_mode 150 45) as (_ & H2 & _).
  destruct (final_wpm_by_mode 3 3) as (_ & _ & _ & H4 & _).
  destruct (final_wpm_by_mode 150 0) as (_ & _ & _ & _ & _ & H6 & _).
  split; [| split].
  - rewrite H2; vm_compute; reflexivity.
  - rewrite H4; vm_compute; reflexivity.
  - rewrite H6; vm_compute; reflexivity.
Defined.

(** ** Line completion and the history *)

Lemma complete_game_history e g :
  completed_lines_history (complete_game e g) =
    if negb (String.eqb (typed_text g) EmptyString)
    then completed_lines_history g ++ [history_entry g]
    else completed_lines_history g.
Proof.
  unfold complete_game. cbv zeta. fields.
  destruct (negb (String.eqb (typed_text g) EmptyString)).
  all: set (g3 := if 0 <? _ then _ else _).
  all: set (g4 := match current_user g3 with None => _ | Some _ => _ end).
  all: assert (H4 : erase_store g4 = erase_store g3)
         by (subst g4; destruct (current_user g3);
             [reflexivity | apply prompt_username_store]).
  all: assert (H5 : erase_store
                      (if truthy (current_user g4)
                       then update_user_stats e
                              (final_wpm (game_mode g3)
                                 (total_chars_typed g3) (elapsed_time g3))
                              (accuracy g4) g4
                       else g4) = erase_store g3)
         by (destruct (truthy (current_user g4));
             [rewrite update_user_stats_store |]; exact H4).
  all: apply (f_equal completed_lines_history) in H5; fields_in H5.
  all: rewrite H5; subst g3; unfold history_entry.
  all: repeat case_match; reflexivity.
Qed.

(** What a completed line adds to the history: one entry, and a second
    copy of it when the completion ends the test, because
    [complete_game] runs with [typed_text] still holding the line. *)
Lemma check_line_completion_history e g g' :
  String.length (typed_text g) = String.length (target_text g) ->
  check_line_completion e g = Some g' ->
  completed_lines_history g' =
    completed_lines_history g
      ++ (if ends_test g && negb (String.eqb (typed_text g) EmptyString)
          then [history_entry g; history_entry g]
          else [history_entry g]).
Proof.
  intros Hlen. unfold check_line_completion, next_paragraph, ends_test.
  rewrite Hlen, Nat.eqb_refl. cbv zeta. fields.
  destruct (bool_decide (game_mode g = Some Mode30word)
            && (30 <=? total_words_typed g
                       + Z.of_nat (length (split (target_text g))))) eqn:Hw.
  - intros H. injection H as <-. rewrite complete_game_history. fields.
    cbn [orb]. unfold history_entry. fields.
    destruct (negb (String.eqb (typed_text g) EmptyString));
      cbn [andb]; [now rewrite <- app_assoc | reflexivity].
  - cbn [orb].
    destruct (Z.of_nat (current_line_index g)
                <? Z.of_nat (length (current_lines g)) - 1) eqn:Hi.
    + cbn [negb andb]. intros H. simplify_option_eq; reflexivity.
    + cbn [negb andb].
      destruct (game_mode g) as [[| |] |] eqn:Hm; intros H;
        simplify_option_eq; try reflexivity.
      rewrite complete_game_history. fields. unfold history_entry. fields.
      destruct (negb (String.eqb (typed_text g) EmptyString));
        cbn [andb]; [now rewrite <- app_assoc | reflexivity].
Qed.

(** C1, the test-ending keystroke. Typing [b] completes the line ["ab"]
    and ends the test: the history, empty before, holds the same triple
    twice afterwards. *)
Theorem final_keystroke_appends_twice :
  run last_line_keys last_line_start = Some last_line
  /\ game_state last_line = IN_TEST
  /\ target_text last_line = "ab"%string
  /\ typed_text last_line = "a"%string
  /\ completed_lines_history last_line = []
  /\ exists g',
       on_key "b" (at_time 103 0) last_line = Some g'
       /\ game_state g' = COMPLETE
       /\ completed_lines_history g' =
            [("ab"%string, "ab"%string, ∅); ("ab"%string, "ab"%string, ∅)].
Proof.
  repeat (split; [vm_compute; reflexivity |]).
  eexists. split; [vm_compute; reflexivity |].
  split; vm_compute; reflexivity.
Qed.

(** ** The last line in ["30word"] mode *)

(** With the word target not reached and no line left,
    [check_line_completion] has no branch for ["30word"]: it records the
    line and changes nothing else. *)
Lemma word_sprint_no_branch e g :
  String.length (typed_text g) = String.length (target_text g) ->
  game_mode g = Some Mode30word ->
  total_words_typed g + Z.of_nat (length (split (target_text g))) < 30 ->
  Z.of_nat (length (current_lines g)) - 1 <= Z.of_nat (current_line_index g) ->
  check_line_completion e g =
    Some (set_total_words_typed
            (total_words_typed g + Z.of_nat (length (split (target_text g))))
            (set_lines_completed (lines_completed g + 1) (history_append g))).
Proof.
  intros Hlen Hmode Hwords Hlast. unfold check_line_completion.
  rewrite Hlen, Nat.eqb_refl. cbv zeta. fields. rewrite Hmode.
  rewrite bool_decide_true by reflexivity.
  destruct (30 <=? _) eqn:Hw; [apply Z.leb_le in Hw; lia |].
  cbn [andb].
  destruct (_ <? _) eqn:Hi; [apply Z.ltb_lt in Hi; lia |].
  reflexivity.
Qed.

(** C2, the last line in ["30word"] mode. After the only line of the
    paragraph is typed, 2 of the 30 words are done, yet no paragraph is
    drawn: paragraph, lines and index are the old ones and the typed
    buffer still holds the whole line; the next key does not type but
    records the same line again and counts its words again. *)
Theorem word_sprint_last_line_stalls :
  run sprint_keys sprint_start = Some sprint_done
  /\ game_state sprint_done = IN_TEST
  /\ game_mode sprint_done = Some Mode30word
  /\ total_words_typed sprint_done = 2
  /\ current_paragraph sprint_done = "ab cd"%string
  /\ current_lines sprint_done = ["ab cd"%string]
  /\ current_line_index sprint_done = 0%nat
  /\ typed_text sprint_done = "ab cd"%string
  /\ length (completed_lines_history sprint_done) = 1%nat
  /\ exists g',
       on_key "x" (at_time 107 1) sprint_done = Some g'
       /\ typed_text g' = "ab cd"%string
       /\ total_chars_typed g' = total_chars_typed sprint_done
       /\ total_words_typed g' = 4
       /\ length (completed_lines_history g') = 2%nat.
Proof.
  repeat (split; [vm_compute; reflexivity |]).
  eexists. split; [vm_compute; reflexivity |].
  repeat (split; [vm_compute; reflexivity |]). vm_compute. reflexivity.
Qed.

(** ** Witnesses on concrete states *)

Lemma cat_sat_typed : typed_text cat_sat = EmptyString.
Proof. vm_compute. reflexivity. Qed.

Lemma leading_space_discarded_witness :
  handle_character (at_time 101 0) space cat_sat = Some cat_sat
  /\ on_key "space" (at_time 101 0) cat_sat = Some cat_sat.
Proof.
  assert (H2 : target_text cat_sat <> EmptyString) by (cbn; discriminate).
  assert (H3 : String.get 0 (target_text cat_sat) <> Some space)
    by (cbn; discriminate).
  destruct (leading_space_discarded (at_time 101 0) cat_sat
              cat_sat_typed H2 H3) as [H Hk].
  exact (conj H (Hk eq_refl)).
Defined.

Lemma backspace_only_trims_witness :
  exists g',
    on_key "backspace" (at_time 104 0) sample_typing = Some g'
    /\ mistakes g' = mistakes sample_typing
    /\ total_chars_typed g' = total_chars_typed sample_typing.
Proof.
  destruct (backspace_only_trims (at_time 104 0) sample_typing
              sample_typing_state)
    as (g' & H1 & _ & _ & H2 & H3 & _).
  exists g'. exact (conj H1 (conj H3 H2)).
Defined.

(** ** TextLibrary: what [split] and [split_into_lines] return *)

Lemma string_app_cons (x : ascii) (a b : string) :
  String x a +:+ b = String x (a +:+ b).
Proof. reflexivity. Qed.

Lemma string_app_nil_l (b : string) : EmptyString +:+ b = b.
Proof. reflexivity. Qed.

Lemma string_app_assoc (a b c : string) :
  (a +:+ b) +:+ c = a +:+ (b +:+ c).
Proof.
  induction a as [| x a IH]; [reflexivity |].
  rewrite !string_app_cons. now f_equal.
Qed.

Lemma string_app_nil_r (a : string) : a +:+ EmptyString = a.
Proof.
  induction a as [| x a IH]; [reflexivity |].
  rewrite string_app_cons. now f_equal.
Qed.

Lemma no_space_app (a b : string) :
  no_space (a +:+ b) = no_space a && no_space b.
Proof.
  induction a as [| x a IH]; [reflexivity |].
  rewrite string_app_cons. cbn [no_space]. rewrite IH. now rewrite andb_assoc.
Qed.

Lemma split_from_word (cur w s : string) :
  no_space w = true -> split_from cur (w +:+ s) = split_from (cur +:+ w) s.
Proof.
  revert cur. induction w as [| c w IH]; intros cur Hw.
  - now rewrite string_app_nil_l, string_app_nil_r.
  - cbn [no_space] in Hw. apply andb_prop in Hw as [Hc Hw].
    apply negb_true_iff in Hc.
    rewrite string_app_cons. cbn [split_from]. rewrite Hc, (IH _ Hw).
    rewrite string_app_assoc. reflexivity.
Qed.

Lemma split_from_is_word (cur s : string) :
  no_space cur = true -> Forall is_word (split_from cur s).
Proof.
  revert cur. induction s as [| c s IH]; intros cur Hcur; cbn [split_from].
  - destruct (decide (cur = EmptyString)); [constructor |].
    repeat constructor; assumption.
  - destruct (isspace c) eqn:Hc.
    + destruct (decide (cur = EmptyString)); [now apply IH |].
      constructor; [split; assumption | now apply IH].
    + apply IH. rewrite no_space_app, Hcur. cbn [no_space]. now rewrite Hc.
Qed.

Lemma split_is_word (s : string) : Forall is_word (split s).
Proof. now apply split_from_is_word. Qed.

Lemma join_cons (w : string) (ws : list string) :
  join (w :: ws) =
    match ws with
    | [] => w
    | _ :: _ => w +:+ String space (join ws)
    end.
Proof. destruct ws; reflexivity. Qed.

(** Splitting a line joined from words gives the words back. *)
Lemma split_join (ws : list string) : Forall is_word ws -> split (join ws) = ws.
Proof.
  induction 1 as [| w ws [Hne Hw] Hws IH]; [reflexivity |].
  rewrite join_cons. unfold split in *. destruct ws as [| w' ws].
  - rewrite <- (string_app_nil_r w) at 1.
    rewrite (split_from_word _ _ _ Hw), string_app_nil_l. cbn [split_from].
    destruct (decide (w = EmptyString)); [contradiction | reflexivity].
  - rewrite (split_from_word _ _ _ Hw), string_app_nil_l. cbn [split_from].
    change (isspace space) with true. cbv iota.
    destruct (decide (w = EmptyString)); [contradiction |].
    now rewrite IH.
Qed.

Lemma join_starts_with_word (w : string) (ws : list string) :
  is_word w ->
  join (w :: ws) <> EmptyString
  /\ String.get 0 (join (w :: ws)) <> Some space.
Proof.
  intros [Hne Hw]. rewrite join_cons.
  destruct w as [| c w]; [contradiction |].
  cbn [no_space] in Hw. apply andb_prop in Hw as [Hc _].
  assert (Hsp : c <> space).
  { intros ->. revert Hc. vm_compute. discriminate. }
  destruct ws; [| rewrite string_app_cons]; cbn [String.get];
    (split; [discriminate | congruence]).
Qed.

Lemma greedy_chunks_cons m ch chunks :
  length ch = m -> (0 < m)%nat ->
  greedy_chunks m chunks -> greedy_chunks m (ch :: chunks).
Proof.
  intros Hch Hm [Hall Hfull]. split.
  - constructor; [lia | exact Hall].
  - intros [| i] ch' Hi Hlen; cbn in Hi.
    + now simplify_eq.
    + apply (Hfull i ch' Hi). cbn [length] in Hlen. lia.
Qed.

(** The loop of [split_into_lines] cuts the pending words followed by the
    remaining ones into greedy chunks and joins each chunk. *)
Lemma split_loop_chunks (m : nat) (ws lines cur : list string) :
  (0 < m)%nat -> (length cur < m)%nat ->
  exists chunks,
    flush (split_loop m ws lines cur) = lines ++ map join chunks
    /\ concat chunks = cur ++ ws
    /\ greedy_chunks m chunks.
Proof.
  intros Hm. revert lines cur.
  induction ws as [| w ws IH]; intros lines cur Hcur; cbn [split_loop].
  - unfold flush. cbn [fst snd]. destruct cur as [| c cur].
    + exists []. cbn. rewrite app_nil_r.
      split; [reflexivity |]. split; [reflexivity |].
      split; [constructor | intros i ch Hi; discriminate].
    + exists [c :: cur]. cbn [map concat]. rewrite !app_nil_r.
      split; [reflexivity |]. split; [reflexivity |]. split.
      * constructor; [cbn [length] in *; lia | constructor].
      * intros [| i] ch Hi Hlen; cbn in Hlen; lia.
  - destruct (m <=? length (cur ++ [w]))%nat eqn:Hfull.
    + apply Nat.leb_le in Hfull. rewrite length_app in Hfull.
      cbn [length] in Hfull.
      destruct (IH (lines ++ [join (cur ++ [w])]) []) as (chunks & H1 & H2 & H3);
        [cbn; lia |].
      exists ((cur ++ [w]) :: chunks). cbn [map concat].
      rewrite H1, H2, <- !app_assoc. cbn [app].
      split; [reflexivity |]. split; [reflexivity |].
      apply (greedy_chunks_cons m (cur ++ [w]) chunks); try assumption.
      rewrite length_app. cbn [length]. lia.
    + apply Nat.leb_gt in Hfull.
      destruct (IH lines (cur ++ [w]) Hfull) as (chunks & H1 & H2 & H3).
      exists chunks. rewrite H1, H2, <- app_assoc. cbn [app]. auto.
Qed.

(** [split_into_lines] as a whole: the words of the paragraph, cut into
    greedy chunks of ten, each chunk joined by single spaces. *)
Lemma split_into_lines_chunks (p : string) :
  exists chunks,
    split_into_lines p = map join chunks
    /\ concat chunks = split p
    /\ greedy_chunks 10 chunks.
Proof.
  destruct (split_loop_chunks 10 (split p) [] []) as (chunks & H1 & H2 & H3);
    [lia | cbn; lia |].
  exists chunks. split; [| split; assumption].
  unfold split_into_lines, split_into_lines_n.
  unfold flush in H1. destruct (split_loop 10 (split p) [] []) as [ls cur].
  cbn [fst snd] in H1. exact H1.
Qed.

Lemma chunk_words (chunks : list (list string)) :
  Forall is_word (concat chunks) ->
  words_of (map join chunks) = concat chunks.
Proof.
  unfold words_of. induction chunks as [| ch chunks IH]; [reflexivity |].
  cbn [concat map]. intros H. apply Forall_app in H as [Hch Hrest].
  rewrite (split_join ch Hch), (IH Hrest). reflexivity.
Qed.

Lemma lines_words (p : string) :
  words_of (split_into_lines p) = split p.
Proof.
  destruct (split_into_lines_chunks p) as (chunks & H1 & H2 & _).
  rewrite H1, chunk_words; [exact H2 |].
  rewrite H2. apply split_is_word.
Qed.

Lemma lines_shape (p line : string) :
  line ∈ split_into_lines p ->
  line <> EmptyString
  /\ String.get 0 line <> Some space
  /\ (1 <= word_count line <= 10)%nat.
Proof.
  destruct (split_into_lines_chunks p) as (chunks & H1 & H2 & [H3 _]).
  rewrite H1. intros Hin. apply list_elem_of_fmap in Hin as (ch & -> & Hch).
  assert (Hw : Forall is_word ch).
  { pose proof (split_is_word p) as Hall. rewrite <- H2 in Hall.
    rewrite Forall_concat in Hall. rewrite Forall_forall in Hall.
    now apply Hall. }
  rewrite Forall_forall in H3. specialize (H3 ch Hch).
  unfold word_count. rewrite (split_join ch Hw).
  destruct ch as [| w ws]; [cbn in H3; lia |].
  apply Forall_cons in Hw as [Hw _].
  destruct (join_starts_with_word w ws Hw) as [Hne Hsp].
  repeat split; try assumption; lia.
Qed.

Lemma lines_full (p line : string) (i : nat) :
  split_into_lines p !! i = Some line ->
  (i + 1 < length (split_into_lines p))%nat ->
  word_count line = 10%nat.
Proof.
  destruct (split_into_lines_chunks p) as (chunks & H1 & H2 & [H3 H4]).
  rewrite H1, length_map, list_lookup_fmap. intros Hi Hlen.
  destruct (chunks !! i) as [ch |] eqn:Hch; [| discriminate].
  cbn in Hi. injection Hi as <-.
  assert (Hw : Forall is_word ch).
  { pose proof (split_is_word p) as Hall. rewrite <- H2 in Hall.
    rewrite Forall_concat in Hall. rewrite Forall_forall in Hall.
    apply Hall. apply list_elem_of_lookup. eauto. }
  unfold word_count. rewrite (split_join ch Hw). eauto.
Qed.

Lemma greedy_chunks_length m chunks :
  (0 < m)%nat -> greedy_chunks m chunks ->
  (length (concat chunks) <= m * length chunks
   /\ (chunks <> [] -> m * (length chunks - 1) < length (concat chunks)))%nat.
Proof.
  intros Hm. induction chunks as [| ch chunks IH]; intros [Hall Hfull].
  - cbn. split; [lia | congruence].
  - apply Forall_cons in Hall as [Hch Hall].
    assert (Hg : greedy_chunks m chunks).
    { split; [exact Hall |]. intros i c Hi Hlen.
      apply (Hfull (S i) c Hi). cbn [length]. lia. }
    destruct (IH Hg) as [IH1 IH2].
    cbn [concat length]. rewrite length_app. split; [nia |].
    intros _. destruct chunks as [| c2 chunks].
    + cbn. lia.
    + assert (length ch = m) by (apply (Hfull 0%nat ch eq_refl); cbn; lia).
      specialize (IH2 ltac:(discriminate)). cbn [length] in *. nia.
Qed.

Lemma lines_count (p : string) :
  length (split_into_lines p) = ((length (split p) + 9) / 10)%nat
  /\ (split_into_lines p = [] <-> split p = []).
Proof.
  destruct (split_into_lines_chunks p) as (chunks & H1 & H2 & H3).
  destruct (greedy_chunks_length 10 chunks ltac:(lia) H3) as [Hle Hgt].
  rewrite H1, length_map, <- H2.
  assert (Hcount : length chunks = ((length (concat chunks) + 9) / 10)%nat).
  { destruct chunks as [| ch chunks]; [reflexivity |].
    specialize (Hgt ltac:(discriminate)).
    apply Nat.div_unique with
      (r := (length (concat (ch :: chunks)) + 9
             - 10 * length (ch :: chunks))%nat); lia. }
  split; [exact Hcount |].
  split; intros H.
  - apply fmap_nil_inv in H. subst chunks. reflexivity.
  - destruct chunks as [| ch chunks]; [reflexivity |].
    specialize (Hgt ltac:(discriminate)). rewrite H in Hgt. cbn in Hgt. lia.
Qed.

(** ** The state machine keeps the application object well formed *)

Lemma text_ok_target g :
  text_ok g -> game_mode g <> None ->
  target_text g <> EmptyString
  /\ String.get 0 (target_text g) <> Some space.
Proof.
  intros Ht Hm. destruct (text_lines g Ht Hm) as (_ & Hl & Hi).
  assert (Hin : target_text g ∈ split_into_lines (current_paragraph g)).
  { rewrite <- Hl. apply list_elem_of_lookup. eauto. }
  destruct (lines_shape _ _ Hin) as (H1 & H2 & _). auto.
Qed.

Lemma target_room g :
  text_ok g -> game_mode g <> None -> typed_text g = EmptyString ->
  (String.length (typed_text g) < String.length (target_text g))%nat.
Proof.
  intros Ht Hm ->. destruct (text_ok_target g Ht Hm) as [Hne _].
  destruct (target_text g); [contradiction | cbn; lia].
Qed.

Lemma machine_ok_mounted ps user users disk :
  machine_ok (mounted ps user users disk).
Proof.
  constructor; [constructor |..]; unfold mounted; fields;
    try congruence; try (intros; lia); try (intros; done).
  intros [|[|]]; discriminate.
Qed.

(** The state a session starts from: the attributes [reset_session]
    leaves, given the text it is to type. *)
Lemma reset_session_ok g st :
  st = MENU \/ st = READY ->
  game_state g = st ->
  game_mode g <> None ->
  current_paragraph g ∈ paragraphs g ->
  current_lines g = split_into_lines (current_paragraph g) ->
  current_line_index g = 0%nat ->
  current_lines g !! 0%nat = Some (target_text g) ->
  machine_ok (reset_session g).
Proof.
  intros Hst Hs Hm Hp Hl Hi Ht.
  assert (Htext : text_ok (reset_session g)).
  { constructor; unfold reset_session; fields.
    - intros _. rewrite Hi. auto.
    - cbn. lia.
    - intros k Hk. set_solver.
    - discriminate. }
  constructor; try exact Htext; unfold reset_session; fields.
  - rewrite Hs. split; [discriminate | destruct Hst; congruence].
  - intros _. exact Hm.
  - intros _. split; reflexivity.
  - intros; lia.
  - intros _. reflexivity.
  - intros _ _. left. rewrite Hi. reflexivity.
  - intros _ _ _. apply (target_room (reset_session g) Htext); [exact Hm |].
    reflexivity.
  - lia.
Qed.

Lemma start_mode_ok mode e g g' :
  start_mode mode e g = Some g' -> machine_ok g'.
Proof.
  unfold start_mode, random_choice. intros H. simplify_option_eq.
  eapply (reset_session_ok _ MENU); fields; auto; try done.
  apply list_elem_of_lookup. eauto.
Qed.

Lemma text_ok_shape g g' : text_shape g' = text_shape g -> text_ok g -> text_ok g'.
Proof.
  unfold text_shape. intros H [H1 H2 H3 H4].
  injection H as E1 E2 E3 E4 E5 E6 E7 E8 E9.
  constructor; rewrite ?E1, ?E2, ?E3, ?E4, ?E5, ?E6, ?E7, ?E8, ?E9; assumption.
Qed.

Lemma machine_ok_shape g g' :
  text_shape g' = text_shape g -> machine_shape g' = machine_shape g ->
  machine_ok g -> machine_ok g'.
Proof.
  intros Ht Hm [H0 H1 H2 H3 H4 H5 H6 H7 H8].
  pose proof (text_ok_shape g g' Ht H0) as H0'.
  unfold text_shape, machine_shape in *.
  injection Ht as E1 E2 E3 E4 E5 E6 E7 E8 E9.
  injection Hm as F1 F2 F3 F4 F5 F6.
  constructor; try exact H0';
    rewrite ?E1, ?E2, ?E3, ?E4, ?E5, ?E6, ?E7, ?E8, ?E9,
            ?F1, ?F2, ?F3, ?F4, ?F5, ?F6; assumption.
Qed.

Lemma machine_ok_not_completed g :
  machine_ok g -> game_state g <> COMPLETE -> completed g = false.
Proof.
  intros Hok Hs. destruct (completed g) eqn:Hc; [| reflexivity].
  apply (machine_completed g Hok) in Hc. contradiction.
Qed.

(** Leaving for the menu, or readying: the buffer is emptied (or is
    already empty) and the timer unset; nothing else that matters
    changes. *)
Lemma idle_ok g g' st :
  machine_ok g ->
  game_state g <> COMPLETE ->
  (st = MENU \/ st = READY /\ game_mode g <> None) ->
  game_state g' = st ->
  typed_text g' = EmptyString ->
  start_time g' = 0%Q ->
  text_shape g' = text_shape (set_typed_text EmptyString g) ->
  (completed g', total_words_typed g', completed_lines_history g',
   lines_completed g')
  = (completed g, total_words_typed g, completed_lines_history g,
     lines_completed g) ->
  machine_ok g'.
Proof.
  intros Hok Hs Hst Hs' Hty Hstart Ht Hm.
  pose proof (machine_ok_not_completed g Hok Hs) as Hc.
  destruct Hok as [H0 H1 H2 H3 H4 H5 H6 H7 H8].
  injection Hm as F1 F2 F3 F4.
  assert (H0' : text_ok g').
  { apply (text_ok_shape (set_typed_text EmptyString g) g' Ht).
    destruct H0 as [T1 T2 T3 T4]. constructor; fields; auto. cbn. lia. }
  unfold text_shape in Ht. fields_in Ht.
  injection Ht as E1 E2 E3 E4 E5 E6 E7 E8 E9.
  constructor; try exact H0'; rewrite ?Hs', ?F1, ?F2, ?F3, ?F4, ?Hc.
  - split; [discriminate | destruct Hst as [-> | [-> _]]; discriminate].
  - intros Hin. rewrite E1.
    destruct Hst as [-> | [-> Hm]]; [| exact Hm].
    destruct Hin as [|[|]]; discriminate.
  - intros _ _. auto.
  - rewrite E1. rewrite Hc in H4. exact H4.
  - rewrite Hc in H5. exact H5.
  - rewrite E1, E2, E4, E5. rewrite Hc in H6. exact H6.
  - intros _ Hm _. apply (target_room g' H0' Hm Hty).
  - exact H8.
Qed.

Lemma cancel_ready_ok g :
  machine_ok g -> game_state g = READY -> machine_ok (cancel_ready g).
Proof.
  intros Hok Hs.
  apply (idle_ok g (cancel_ready g) MENU Hok); auto; congruence.
Qed.

Lemma cancel_test_ok g :
  machine_ok g -> game_state g = IN_TEST -> machine_ok (cancel_test g).
Proof.
  intros Hok Hs.
  apply (idle_ok g (cancel_test g) MENU Hok); auto; congruence.
Qed.

Lemma ready_up_ok g :
  machine_ok g -> game_state g = MENU -> game_mode g <> None ->
  machine_ok (ready_up g).
Proof.
  intros Hok Hs Hm.
  destruct (machine_idle g Hok) as [Hty Hst]; [congruence .. |].
  apply (idle_ok g (ready_up g) READY Hok); auto; try congruence.
  unfold text_shape, ready_up. fields. now rewrite Hty.
Qed.

Lemma return_to_menu_ok g : machine_ok (return_to_menu g).
Proof.
  assert (Htext : text_ok (return_to_menu g)).
  { constructor; unfold return_to_menu, reset_session; fields.
    - congruence.
    - cbn. lia.
    - intros k Hk. set_solver.
    - discriminate. }
  constructor; try exact Htext; unfold return_to_menu, reset_session; fields;
    try congruence; try (intros; lia); try (intros; done).
  intros [|[|]]; discriminate.
Qed.

Lemma restart_ok g g' :
  machine_ok g -> restart g = Some g' -> machine_ok g'.
Proof.
  intros Hok. unfold restart.
  destruct (game_mode g) as [mode |] eqn:Hm; intros H; simplify_option_eq;
    [| exact Hok].
  destruct (text_lines g (machine_text g Hok)) as (Hp & Hl & _);
    [congruence |].
  eapply (reset_session_ok _ READY); fields; auto; try done.
Qed.

(** Every attribute [complete_game] does not write, read off two objects
    that agree once the written ones are erased. *)
Lemma erase_result_fields g g' :
  erase_result g' = erase_result g ->
  text_shape g' = text_shape g
  /\ kept g' = kept g
  /\ (timers g', start_time g', total_words_typed g', lines_completed g')
     = (timers g, start_time g, total_words_typed g, lines_completed g).
Proof.
  intros H. unfold text_shape, kept.
  pose proof (f_equal game_mode H) as E1.
  pose proof (f_equal current_paragraph H) as E2.
  pose proof (f_equal paragraphs H) as E3.
  pose proof (f_equal current_lines H) as E4.
  pose proof (f_equal current_line_index H) as E5.
  pose proof (f_equal target_text H) as E6.
  pose proof (f_equal typed_text H) as E7.
  pose proof (f_equal mistake_positions H) as E8.
  pose proof (f_equal countdown_remaining H) as E9.
  pose proof (f_equal mistakes H) as F1.
  pose proof (f_equal total_chars_typed H) as F2.
  pose proof (f_equal current_streak H) as F3.
  pose proof (f_equal best_streak H) as F4.
  pose proof (f_equal timers H) as F5.
  pose proof (f_equal start_time H) as F6.
  pose proof (f_equal total_words_typed H) as F7.
  pose proof (f_equal lines_completed H) as F8.
  fields_in E1. fields_in E2. fields_in E3. fields_in E4. fields_in E5.
  fields_in E6. fields_in E7. fields_in E8. fields_in E9.
  fields_in F1. fields_in F2. fields_in F3. fields_in F4. fields_in F5.
  fields_in F6. fields_in F7. fields_in F8.
  repeat split; congruence.
Qed.

Lemma complete_game_fields e g :
  text_shape (complete_game e g) = text_shape g
  /\ kept (complete_game e g) = kept g
  /\ (timers (complete_game e g), start_time (complete_game e g),
      total_words_typed (complete_game e g),
      lines_completed (complete_game e g))
     = (timers g, start_time g, total_words_typed g, lines_completed g).
Proof. exact (erase_result_fields g _ (complete_game_result e g)). Qed.

Lemma complete_game_flags e g :
  completed (complete_game e g) = true
  /\ game_state (complete_game e g) = COMPLETE.
Proof.
  unfold complete_game. cbv zeta.
  set (g3 := if 0 <? _ then _ else _).
  set (g4 := match current_user g3 with None => _ | Some _ => _ end).
  assert (H4 : erase_store g4 = erase_store g3)
    by (subst g4; destruct (current_user g3);
        [reflexivity | apply prompt_username_store]).
  assert (H5 : erase_store
                 (if truthy (current_user g4)
                  then update_user_stats e
                         (final_wpm (game_mode g3)
                            (total_chars_typed g3) (elapsed_time g3))
                         (accuracy g4) g4
                  else g4) = erase_store g3)
    by (destruct (truthy (current_user g4));
        [rewrite update_user_stats_store |]; exact H4).
  pose proof (f_equal completed H5) as E1.
  pose proof (f_equal game_state H5) as E2.
  fields_in E1. fields_in E2. rewrite E1, E2. subst g3.
  repeat case_match; split; reflexivity.
Qed.

Lemma complete_game_text e g :
  text_shape (complete_game e g) = text_shape g.
Proof. apply complete_game_fields. Qed.

Lemma complete_game_ok e g :
  text_ok g -> game_mode g <> None -> 0 <= total_words_typed g ->
  machine_ok (complete_game e g).
Proof.
  intros Ht Hm Hw.
  destruct (complete_game_fields e g) as (_ & _ & Ew).
  injection Ew as _ _ Ew _.
  pose proof (complete_game_text e g) as Hs.
  destruct (complete_game_flags e g) as [Hc Hst].
  assert (Ht' : text_ok (complete_game e g))
    by (apply (text_ok_shape g _ Hs Ht)).
  unfold text_shape in Hs. injection Hs as E1 _ _ _ _ _ _ _ _.
  constructor; try exact Ht'; rewrite ?Hc, ?Hst, ?E1, ?Ew;
    try discriminate; try assumption.
  - split; reflexivity.
  - intros _. exact Hm.
  - intros; congruence.
Qed.

Lemma words_before_S n lines line :
  lines !! n = Some line ->
  words_before (S n) lines = words_before n lines + Z.of_nat (word_count line).
Proof.
  intros H. unfold words_before, words_of, word_count.
  rewrite (take_S_r _ _ _ H), map_app, concat_app, length_app.
  cbn [map concat]. rewrite app_nil_r. lia.
Qed.

Lemma words_before_all p :
  words_before (length (split_into_lines p)) (split_into_lines p)
  = Z.of_nat (length (split p)).
Proof.
  unfold words_before. rewrite firstn_all. now rewrite lines_words.
Qed.

(** What [check_line_completion] needs of the object it is given: the
    facts of [machine_ok] that hold while a character has just been
    appended, when the buffer may be full. *)
Lemma check_line_completion_ok e g g' :
  text_ok g ->
  game_state g = IN_TEST ->
  completed g = false ->
  game_mode g <> None ->
  (game_mode g = Some Mode30word -> total_words_typed g < 30) ->
  0 <= total_words_typed g ->
  Z.of_nat (length (completed_lines_history g)) = lines_completed g ->
  (game_mode g = Some Mode30word ->
   total_words_typed g = words_before (current_line_index g) (current_lines g)
   \/ (length (split (current_paragraph g)) < 30)%nat) ->
  check_line_completion e g = Some g' ->
  machine_ok g'.
Proof.
  intros Ht Hs Hc Hm Hw Hpos Hh Hp.
  destruct (text_lines g Ht Hm) as (Hpar & Hlines & Htarget).
  unfold check_line_completion.
  destruct (String.length (typed_text g) =? String.length (target_text g))%nat
    eqn:Hlen.
  2: { intros H. injection H as <-. apply Nat.eqb_neq in Hlen.
       pose proof (text_buffer g Ht) as Hb.
       constructor; rewrite ?Hs, ?Hc; try assumption; try discriminate.
       - split; discriminate.
       - intros _. exact Hm.
       - intros; congruence.
       - auto.
       - auto.
       - auto.
       - intros _ _ _. lia. }
  cbv zeta. fields.
  set (total' := total_words_typed g
                 + Z.of_nat (length (split (target_text g)))).
  set (g1 := set_total_words_typed total'
               (set_lines_completed (lines_completed g + 1)
                  (history_append g))).
  assert (Hpos' : 0 <= total') by (subst total'; lia).
  assert (Ht1 : text_ok g1)
    by (eapply text_ok_shape; [| exact Ht]; reflexivity).
  assert (Hh1 : Z.of_nat (length (completed_lines_history g1))
                = lines_completed g1).
  { subst g1. fields. rewrite length_app. cbn [length]. lia. }
  assert (Hnext : game_mode g = Some Mode30word ->
            total' = words_before (S (current_line_index g)) (current_lines g)
            \/ (length (split (current_paragraph g)) < 30)%nat).
  { intros Hmode. destruct (Hp Hmode) as [Heq | Hlt]; [left | now right].
    rewrite (words_before_S _ _ _ Htarget). unfold word_count.
    subst total'. lia. }
  destruct (bool_decide (game_mode g = Some Mode30word) && (30 <=? total'))
    eqn:Hdone.
  { intros H. injection H as <-. apply complete_game_ok; assumption. }
  assert (Hw1 : game_mode g = Some Mode30word -> total' < 30).
  { intros Hmode. rewrite (bool_decide_true _ Hmode) in Hdone.
    cbn [andb] in Hdone. apply Z.leb_gt in Hdone. exact Hdone. }
  destruct (Z.of_nat (current_line_index g)
              <? Z.of_nat (length (current_lines g)) - 1) eqn:Hmore.
  { (* the next line *)
    intros H.
    destruct (current_lines g !! (current_line_index g + 1)%nat)
      as [target |] eqn:Hnew; [| discriminate].
    cbn in H. injection H as <-.
    replace (current_line_index g + 1)%nat with (S (current_line_index g))
      in * by lia.
    set (g2 := set_mistake_positions _ _).
    assert (Ht2 : text_ok g2).
    { destruct Ht as [T1 T2 T3 T4]. constructor; subst g2 g1; fields; auto.
      - cbn. lia.
      - intros k Hk. set_solver. }
    assert (Hroom : (String.length (typed_text g2)
                     < String.length (target_text g2))%nat).
    { apply (target_room g2 Ht2); [| reflexivity].
      subst g2 g1. fields. exact Hm. }
    constructor; try exact Ht2; subst g2 g1; fields; fields_in Hh1;
      fields_in Hroom; rewrite ?Hs, ?Hc; auto; try discriminate.
    - split; discriminate.
    - intros; congruence. }
  (* the last line *)
  apply Z.ltb_ge in Hmore.
  assert (Hlast : S (current_line_index g) = length (current_lines g)).
  { apply lookup_lt_Some in Htarget. lia. }
  destruct (game_mode g) as [[| |] |] eqn:Hmode; [| | | congruence].
  - (* "30sec": a new paragraph *)
    unfold next_paragraph, random_choice. intros H.
    destruct (paragraphs g1 !! _) as [p |] eqn:Hpick; [| discriminate].
    cbn in H. fields_in H.
    destruct (split_into_lines p !! 0%nat) as [target |] eqn:Hfirst;
      [| discriminate].
    cbn in H. injection H as <-.
    set (g2 := set_mistake_positions _ _).
    assert (Ht2 : text_ok g2).
    { destruct Ht as [T1 T2 T3 T4]. constructor; subst g2 g1; fields; auto.
      - intros _. split; [| auto].
        apply list_elem_of_lookup. eexists. exact Hpick.
      - cbn. lia.
      - intros k Hk. set_solver. }
    assert (Hroom : (String.length (typed_text g2)
                     < String.length (target_text g2))%nat).
    { apply (target_room g2 Ht2); [| reflexivity].
      subst g2 g1. fields. congruence. }
    constructor; try exact Ht2; subst g2 g1; fields; fields_in Hh1;
      fields_in Hroom; rewrite ?Hs, ?Hc, ?Hmode; auto; try discriminate.
    + split; discriminate.
    + intros; congruence.
  - (* "30word": no branch *)
    intros H. injection H as <-.
    specialize (Hnext eq_refl). specialize (Hw1 eq_refl).
    assert (Hshort : (length (split (current_paragraph g)) < 30)%nat).
    { destruct Hnext as [Heq | Hlt]; [| exact Hlt].
      rewrite Hlast, Hlines, words_before_all in Heq. lia. }
    constructor; try exact Ht1; subst g1; fields; fields_in Hh1;
      rewrite ?Hs, ?Hc, ?Hmode; auto; try discriminate.
    + split; discriminate.
    + intros; congruence.
    + intros _ _ Hlong. specialize (Hlong eq_refl). lia.
  - (* "unlimited": the test is over *)
    intros H. injection H as <-.
    apply complete_game_ok; [exact Ht1 | | exact Hpos'].
    subst g1. fields. congruence.
Qed.

Lemma start_timer_shape e g :
  text_shape (start_timer e g) = text_shape g
  /\ (game_state (start_timer e g), completed (start_timer e g),
      total_words_typed (start_timer e g),
      completed_lines_history (start_timer e g),
      lines_completed (start_timer e g))
     = (game_state g, completed g, total_words_typed g,
        completed_lines_history g, lines_completed g).
Proof. unfold start_timer. repeat case_match; split; reflexivity. Qed.

(** The attributes after a character has been appended and scored. *)
Lemma scored_shape e g typed :
  let g3 :=
    update_live_stats e
      (score_character
         (set_total_chars_typed (total_chars_typed g + 1)
            (set_typed_text typed g))) in
  (game_mode g3, current_paragraph g3, paragraphs g3, current_lines g3,
   current_line_index g3, target_text g3, typed_text g3,
   countdown_remaining g3)
  = (game_mode g, current_paragraph g, paragraphs g, current_lines g,
     current_line_index g, target_text g, typed, countdown_remaining g)
  /\ machine_shape g3 = machine_shape g
  /\ (mistake_positions g3 = mistake_positions g
      \/ ((String.length typed - 1 < String.length (target_text g))%nat
          /\ mistake_positions g3
             = {[(String.length typed - 1)%nat]} ∪ mistake_positions g)).
Proof.
  cbv zeta. unfold update_live_stats, score_character. fields.
  destruct (_ && _) eqn:Hwrong.
  - apply andb_prop in Hwrong as [Hpos _]. apply Nat.ltb_lt in Hpos.
    repeat case_match; fields; (split; [reflexivity |]);
      (split; [reflexivity |]); auto.
  - repeat case_match; fields; (split; [reflexivity |]);
      (split; [reflexivity |]); auto.
Qed.

Lemma handle_character_ok e c g g' :
  machine_ok g -> game_state g = IN_TEST ->
  handle_character e c g = Some g' -> machine_ok g'.
Proof.
  intros Hok Hs.
  assert (Hc : completed g = false)
    by (apply (machine_ok_not_completed g Hok); congruence).
  assert (Hm : game_mode g <> None)
    by (apply (machine_mode g Hok); rewrite Hs; right; left; reflexivity).
  destruct (start_timer_shape e g) as [Ht0 Hm0].
  injection Hm0 as S1 S2 S3 S4 S5.
  pose proof Ht0 as Ht0'. unfold text_shape in Ht0'.
  injection Ht0' as E1 E2 E3 E4 E5 E6 E7 E8 E9.
  destruct Hok as [H0 H1 H2 H3 H4 H5 H6 H7 H8].
  assert (Htimer : text_ok (start_timer e g))
    by (apply (text_ok_shape g _ Ht0 H0)).
  assert (Hover : forall g0,
            check_line_completion e (start_timer e g) = Some g0 ->
            machine_ok g0).
  { intros g0. apply check_line_completion_ok; try assumption;
      rewrite ?S1, ?S2, ?S3, ?S4, ?S5, ?E1, ?E2, ?E4, ?E5; auto. }
  unfold handle_character.
  destruct (_ && _ && _ && _).
  { intros H. injection H as <-. constructor; assumption. }
  destruct (_ && _); [apply Hover |].
  destruct (String.length (target_text (start_timer e g))
            <=? String.length (typed_text (start_timer e g)))%nat eqn:Hfull;
    [apply Hover |].
  apply Nat.leb_gt in Hfull.
  destruct (scored_shape e (start_timer e g)
              (typed_text (start_timer e g) +:+ String c EmptyString))
    as (G1 & G2 & G3).
  cbv zeta in G1, G2, G3. fields.
  set (g3 := update_live_stats e _) in *.
  injection G1 as X1 X2 X3 X4 X5 X6 X7 X8.
  unfold machine_shape in G2. injection G2 as Y1 Y2 Y3 Y4 Y5 Y6.
  assert (Hlen : String.length (typed_text g3)
                 = S (String.length (typed_text (start_timer e g)))).
  { rewrite X7, length_append. cbn. lia. }
  apply check_line_completion_ok;
    rewrite ?X1, ?X2, ?X4, ?X5, ?Y1, ?Y2, ?Y4, ?Y5, ?Y6,
            ?S1, ?S2, ?S3, ?S4, ?S5, ?E1, ?E2, ?E4, ?E5; auto.
  destruct Htimer as [T1 T2 T3 T4].
  constructor; rewrite ?X1, ?X2, ?X3, ?X4, ?X5, ?X6, ?X8; auto.
  - lia.
  - intros k Hk. destruct G3 as [G3 | [Hpos G3]]; rewrite G3 in Hk; [auto |].
    apply elem_of_union in Hk as [Hk | Hk]; [| auto].
    apply elem_of_singleton in Hk. subst k. exact Hpos.
Qed.

Lemma substring_length (n : nat) (s : string) :
  String.length (String.substring 0 n s) = Nat.min n (String.length s).
Proof.
  revert s. induction n as [| n IH]; intros [| c s]; cbn; try reflexivity.
  now rewrite IH.
Qed.

Lemma backspace_ok g :
  machine_ok g -> game_state g = IN_TEST ->
  machine_ok
    (set_typed_text
       (String.substring 0 (String.length (typed_text g) - 1) (typed_text g))
       g).
Proof.
  intros [H0 H1 H2 H3 H4 H5 H6 H7 H8] Hs.
  destruct H0 as [T1 T2 T3 T4].
  assert (Hlen : (String.length
                    (String.substring 0 (String.length (typed_text g) - 1)
                       (typed_text g))
                  <= String.length (typed_text g))%nat)
    by (rewrite substring_length; lia).
  constructor; [constructor |..]; fields; auto; try lia.
  - rewrite Hs. intros; congruence.
  - intros Hc Hm Hp. specialize (H7 Hc Hm Hp). lia.
Qed.

Lemma update_timer_ok e g : machine_ok g -> machine_ok (update_timer e g).
Proof.
  intros Hok. unfold update_timer.
  repeat case_match; try exact Hok.
  eapply machine_ok_shape; [| | exact Hok]; reflexivity.
Qed.

Lemma running_mode g :
  machine_ok g -> (0 < start_time g)%Q -> game_mode g <> None.
Proof.
  intros Hok Hstart. apply (machine_mode g Hok).
  destruct (game_state g) eqn:Hs;
    try (right; left; reflexivity); try (right; right; reflexivity);
    try (left; reflexivity);
    destruct (machine_idle g Hok) as [_ H0]; try congruence;
    rewrite H0 in Hstart; exfalso; revert Hstart; apply Qlt_irrefl.
Qed.

Lemma update_countdown_ok e g :
  machine_ok g -> machine_ok (update_countdown e g).
Proof.
  intros Hok. unfold update_countdown.
  destruct (Qlt_le_dec 0 (start_time g)) as [Hstart |]; [| exact Hok].
  destruct (completed g) eqn:Hc; [exact Hok |].
  pose proof (running_mode g Hok Hstart) as Hm.
  set (left_ := if Qlt_le_dec 0 (30 - (now_typed e - start_time g))
                then (30 - (now_typed e - start_time g))%Q else 0%Q).
  assert (Hleft : (0 <= left_)%Q).
  { subst left_. destruct (Qlt_le_dec 0 _); [now apply Qlt_le_weak |].
    apply Qle_refl. }
  set (g1 := set_countdown_remaining left_ _).
  assert (Ht1 : text_ok g1).
  { destruct (machine_text g Hok) as [T1 T2 T3 T4].
    constructor; subst g1; fields; auto. }
  destruct (Qlt_le_dec 0 (countdown_remaining g1));
    [| apply complete_game_ok;
       [exact Ht1 | exact Hm | exact (machine_count g Hok)]].
  destruct Hok as [H0 H1 H2 H3 H4 H5 H6 H7 H8].
  constructor; try exact Ht1; subst g1; fields; auto.
Qed.

Lemma show_user_menu_shape e g :
  text_shape (show_user_menu e g) = text_shape g
  /\ machine_shape (show_user_menu e g) = machine_shape g.
Proof.
  unfold show_user_menu, save_user_data.
  repeat case_match; split; reflexivity.
Qed.

Lemma on_key_ok key e g g' :
  machine_ok g -> on_key key e g = Some g' -> machine_ok g'.
Proof.
  intros Hok. unfold on_key, new_paragraph.
  destruct (game_state g) eqn:Hs.
  - intros Hkey. now simplify_eq.
  - intros Hkey. now simplify_eq.
  - repeat case_match; intros Hkey; simplify_eq;
      try exact Hok;
      try (eapply start_mode_ok; eassumption).
    + eapply machine_ok_shape; [| | exact Hok]; reflexivity.
    + destruct (show_user_menu_shape e g) as [E1 E2].
      apply (machine_ok_shape g _ E1 E2 Hok).
    + apply ready_up_ok; try assumption.
      match goal with
      | Hb : _ && bool_decide _ = true |- _ =>
          apply andb_prop in Hb as [_ Hb];
          apply bool_decide_eq_true in Hb; exact Hb
      end.
  - repeat case_match; intros Hkey; simplify_eq; try exact Hok.
    + apply cancel_ready_ok; assumption.
    + eapply machine_ok_shape; [| | exact Hok]; reflexivity.
    + eapply handle_character_ok; [| | eassumption]; [| reflexivity].
      assert (Hc : completed g = false)
        by (apply (machine_ok_not_completed g Hok); congruence).
      destruct Hok as [K0 K1 K2 K3 K4 K5 K6 K7 K8].
      constructor; fields; auto.
      * eapply text_ok_shape; [| exact K0]; reflexivity.
      * rewrite Hc. split; discriminate.
      * intros _. apply K2. rewrite Hs. left. reflexivity.
  - repeat case_match; intros Hkey; simplify_eq; try exact Hok.
    + apply cancel_test_ok; assumption.
    + apply backspace_ok; assumption.
    + eapply handle_character_ok; eassumption.
  - repeat case_match; intros Hkey; simplify_eq; try exact Hok;
      try (eapply start_mode_ok; eassumption).
    + eapply restart_ok; eassumption.
    + eapply machine_ok_shape; [| | exact Hok]; reflexivity.
    + apply return_to_menu_ok.
    + destruct (show_user_menu_shape e g) as [E1 E2].
      apply (machine_ok_shape g _ E1 E2 Hok).
Qed.

Lemma step_ok ev e g g' :
  machine_ok g -> step ev e g = Some g' -> machine_ok g'.
Proof.
  intros Hok. destruct ev as [key | t]; cbn [step].
  - apply on_key_ok. exact Hok.
  - repeat case_match; intros Hkey; simplify_eq; try exact Hok.
    + now apply update_countdown_ok.
    + now apply update_timer_ok.
Qed.

Lemma reachable_ok g : reachable g -> machine_ok g.
Proof.
  induction 1 as [ps user users disk | g ev e g' _ IH Hstep].
  - apply machine_ok_mounted.
  - exact (step_ok ev e g g' IH Hstep).
Qed.

(** ** Reachable states of the samples *)

Lemma sample_complete_run :
  run (last_line_keys ++ [(Key "b"%string, at_time 103 0)]) last_line_start
  = Some sample_complete.
Proof. vm_compute. reflexivity. Qed.

Lemma sample_complete_reachable : reachable sample_complete.
Proof.
  apply (reachable_run
           (last_line_keys ++ [(Key "b"%string, at_time 103 0)])
           last_line_start).
  - apply reachable_mounted.
  - exact sample_complete_run.
Defined.

Lemma sample_complete_state : game_state sample_complete = COMPLETE.
Proof. vm_compute. reflexivity. Qed.

Lemma sprint_done_run : run sprint_keys sprint_start = Some sprint_done.
Proof. vm_compute. reflexivity. Qed.

Lemma sprint_done_reachable : reachable sprint_done.
Proof.
  apply (reachable_run sprint_keys sprint_start).
  - apply reachable_mounted.
  - exact sprint_done_run.
Defined.

Lemma sample_chosen_state : game_state sample_chosen = MENU.
Proof. vm_compute. reflexivity. Qed.

Lemma sample_typing_mode : game_mode sample_typing = Some Mode30sec.
Proof. vm_compute. reflexivity. Qed.

Lemma sample_typing_running : completed sample_typing = false.
Proof. vm_compute. reflexivity. Qed.

(** ** Properties of [split_into_lines] *)

(** X1. Cutting a paragraph into lines loses nothing: the words of the
    lines, read in order, are the words of the paragraph. *)
Theorem split_into_lines_words (p : string) :
  words_of (split_into_lines p) = split p.
Proof. apply lines_words. Qed.

(** X2. Every line is non-empty, does not begin with a space and has
    between one and ten words. *)
Theorem split_into_lines_line (p line : string) :
  line ∈ split_into_lines p ->
  line <> EmptyString
  /\ String.get 0 line <> Some space
  /\ (1 <= word_count line <= 10)%nat.
Proof. apply lines_shape. Qed.

Lemma split_into_lines_line_witness :
  (1 <= word_count "a b c d e f g h i j" <= 10)%nat.
Proof.
  assert (H : "a b c d e f g h i j"%string ∈ split_into_lines eleven_words)
    by (vm_compute; constructor).
  destruct (split_into_lines_line eleven_words _ H) as (_ & _ & Hc).
  exact Hc.
Defined.

(** X3. The cut is greedy: every line but the last has exactly ten
    words. *)
Theorem split_into_lines_full (p line : string) (i : nat) :
  split_into_lines p !! i = Some line ->
  (i + 1 < length (split_into_lines p))%nat ->
  word_count line = 10%nat.
Proof. apply lines_full. Qed.

Lemma split_into_lines_full_witness :
  word_count "a b c d e f g h i j" = 10%nat.
Proof.
  assert (H1 : split_into_lines eleven_words !! 0%nat
               = Some "a b c d e f g h i j"%string)
    by (vm_compute; reflexivity).
  assert (H2 : (0 + 1 < length (split_into_lines eleven_words))%nat)
    by (vm_compute; lia).
  exact (split_into_lines_full eleven_words _ 0 H1 H2).
Defined.

(** X4. A paragraph of [n] words gives [ceil(n / 10)] lines; it gives no
    line exactly when it has no word. *)
Theorem split_into_lines_count (p : string) :
  length (split_into_lines p) = ((length (split p) + 9) / 10)%nat
  /\ (split_into_lines p = [] <-> split p = []).
Proof. apply lines_count. Qed.

(** ** Properties of the reachable states *)

(** X5. The [completed] flag is set exactly in the [COMPLETE] state, and
    a test is never readied, running or finished without a mode. *)
Theorem completed_means_complete (g : TypingGame) :
  reachable g ->
  (completed g = true <-> game_state g = COMPLETE)
  /\ (in_session (game_state g) -> game_mode g <> None).
Proof.
  intros Hr. pose proof (reachable_ok g Hr) as Hok.
  split; [apply (machine_completed g Hok) | apply (machine_mode g Hok)].
Qed.

Lemma completed_means_complete_witness :
  completed sample_complete = true <-> game_state sample_complete = COMPLETE.
Proof.
  destruct (completed_means_complete sample_complete
              sample_complete_reachable) as [H _].
  exact H.
Defined.

(** X6. In the menu and in [READY] nothing is typed and the timer is
    unset: a test always starts from an empty buffer and
    [start_time = 0]. *)
Theorem idle_states_are_fresh (g : TypingGame) :
  reachable g ->
  game_state g = MENU \/ game_state g = READY ->
  typed_text g = EmptyString /\ start_time g = 0%Q.
Proof.
  intros Hr Hs. apply (machine_idle g (reachable_ok g Hr));
    destruct Hs; congruence.
Qed.

Lemma idle_states_are_fresh_witness :
  typed_text sample_chosen = EmptyString /\ start_time sample_chosen = 0%Q.
Proof.
  exact (idle_states_are_fresh sample_chosen sample_chosen_reachable
           (or_introl sample_chosen_state)).
Defined.

(** X7. While a mode is chosen, the paragraph is one of the library, the
    lines are that paragraph cut by [split_into_lines], and the target is
    the line at [current_line_index]; so the index is in range and the
    target is non-empty and does not begin with a space. *)
Theorem target_is_current_line (g : TypingGame) :
  reachable g -> game_mode g <> None ->
  current_paragraph g ∈ paragraphs g
  /\ current_lines g = split_into_lines (current_paragraph g)
  /\ current_lines g !! current_line_index g = Some (target_text g)
  /\ (current_line_index g < length (current_lines g))%nat
  /\ target_text g <> EmptyString
  /\ String.get 0 (target_text g) <> Some space.
Proof.
  intros Hr Hm. pose proof (machine_text g (reachable_ok g Hr)) as Ht.
  destruct (text_lines g Ht Hm) as (H1 & H2 & H3).
  destruct (text_ok_target g Ht Hm) as [H4 H5].
  repeat split; try assumption. now apply lookup_lt_Some in H3.
Qed.

Lemma target_is_current_line_witness :
  current_lines sample_typing !! current_line_index sample_typing
  = Some (target_text sample_typing).
Proof.
  assert (Hm : game_mode sample_typing <> None)
    by (rewrite sample_typing_mode; discriminate).
  destruct (target_is_current_line sample_typing sample_typing_reachable Hm)
    as (_ & _ & H & _).
  exact H.
Defined.

(** X8. The typed buffer is never longer than the target line, every
    recorded mistake position is an offset of the target line, and the
    countdown is never negative. *)
Theorem buffer_fits_target (g : TypingGame) :
  reachable g ->
  (String.length (typed_text g) <= String.length (target_text g))%nat
  /\ (forall k, k ∈ mistake_positions g ->
                (k < String.length (target_text g))%nat)
  /\ (0 <= countdown_remaining g)%Q.
Proof.
  intros Hr. destruct (machine_text g (reachable_ok g Hr)) as [_ H2 H3 H4].
  auto.
Qed.

Lemma buffer_fits_target_witness :
  (String.length (typed_text sample_typing)
   <= String.length (target_text sample_typing))%nat.
Proof.
  destruct (buffer_fits_target sample_typing sample_typing_reachable)
    as [H _].
  exact H.
Defined.

(** X9. Until the test is complete, the history has one entry per
    completed line. *)
Theorem history_counts_lines (g : TypingGame) :
  reachable g -> completed g = false ->
  Z.of_nat (length (completed_lines_history g)) = lines_completed g.
Proof. intros Hr. apply (machine_history g (reachable_ok g Hr)). Qed.

Lemma history_counts_lines_witness :
  Z.of_nat (length (completed_lines_history sample_typing))
  = lines_completed sample_typing.
Proof.
  exact (history_counts_lines sample_typing sample_typing_reachable
           sample_typing_running).
Defined.

(** X10. No stall: while the test is not complete there is room in the
    buffer, the typed text being strictly shorter than the target line,
    in ["30sec"] and ["unlimited"] mode always and in ["30word"] mode
    whenever the paragraph has at least 30 words. *)
Theorem buffer_has_room (g : TypingGame) :
  reachable g -> completed g = false -> game_mode g <> None ->
  (game_mode g = Some Mode30word ->
   (30 <= length (split (current_paragraph g)))%nat) ->
  (String.length (typed_text g) < String.length (target_text g))%nat.
Proof. intros Hr. apply (machine_room g (reachable_ok g Hr)). Qed.

Lemma buffer_has_room_witness :
  (String.length (typed_text sample_typing)
   < String.length (target_text sample_typing))%nat.
Proof.
  assert (Hm : game_mode sample_typing <> None)
    by (rewrite sample_typing_mode; discriminate).
  assert (Hw : game_mode sample_typing = Some Mode30word ->
               (30 <= length (split (current_paragraph sample_typing)))%nat)
    by (rewrite sample_typing_mode; discriminate).
  exact (buffer_has_room sample_typing sample_typing_reachable
           sample_typing_running Hm Hw).
Defined.

(** ** Frames of the typing handlers *)

Lemma complete_game_kept e g :
  kept (complete_game e g) = kept g
  /\ timers (complete_game e g) = timers g.
Proof.
  destruct (complete_game_fields e g) as (_ & Hk & Ht).
  injection Ht as Ht _ _ _. auto.
Qed.

Lemma check_line_completion_frame e g g' :
  check_line_completion e g = Some g' ->
  kept g' = kept g
  /\ timers g' = timers g
  /\ (game_state g' = game_state g \/ game_state g' = COMPLETE)
  /\ (game_mode g = Some Mode30sec -> game_state g' = game_state g).
Proof.
  unfold check_line_completion, next_paragraph. intros H.
  repeat case_match; simplify_option_eq;
    try (repeat split; first [reflexivity | left; reflexivity]);
    try match goal with
        | |- context [complete_game ?e ?g0] =>
            destruct (complete_game_kept e g0) as [-> ->];
            destruct (complete_game_flags e g0) as [_ ->];
            (repeat split; first [reflexivity | right; reflexivity | idtac])
        end;
    try (fields; intros; congruence).
  all: match goal with
       | Hb : bool_decide (_ = Some Mode30word) && _ = true |- _ =>
           apply andb_prop in Hb as [Hb _];
           apply bool_decide_eq_true in Hb; fields_in Hb; intros; congruence
       end.
Qed.

Lemma start_timer_frame e g :
  kept (start_timer e g) = kept g
  /\ game_state (start_timer e g) = game_state g
  /\ timers g `prefix_of` timers (start_timer e g)
  /\ (length (timers (start_timer e g)) <= S (length (timers g)))%nat.
Proof.
  unfold start_timer.
  repeat case_match; fields;
    (split; [reflexivity |]); (split; [reflexivity |]);
    (split; [first [reflexivity | apply prefix_app_r; reflexivity] |]);
    rewrite ?length_app; cbn [length]; lia.
Qed.

Lemma scored_frame e g :
  let g3 := update_live_stats e (score_character g) in
  (game_mode g3, paragraphs g3, game_state g3, timers g3)
  = (game_mode g, paragraphs g, game_state g, timers g).
Proof.
  cbv zeta. unfold update_live_stats, score_character.
  repeat case_match; reflexivity.
Qed.

Lemma handle_character_frame e c g g' :
  handle_character e c g = Some g' ->
  game_mode g' = game_mode g
  /\ paragraphs g' = paragraphs g
  /\ (game_state g' = game_state g \/ game_state g' = COMPLETE)
  /\ (game_mode g = Some Mode30sec -> game_state g' = game_state g)
  /\ timers g `prefix_of` timers g'
  /\ (length (timers g') <= S (length (timers g)))%nat.
Proof.
  unfold handle_character.
  destruct (start_timer_frame e g) as (Hk & Hs & Hp & Hl).
  unfold kept in Hk. injection Hk as K1 K2 _ _ _ _.
  assert (Hover : forall g0 g'',
            (game_mode g0, paragraphs g0, game_state g0, timers g0)
            = (game_mode (start_timer e g), paragraphs (start_timer e g),
               game_state (start_timer e g), timers (start_timer e g)) ->
            check_line_completion e g0 = Some g'' ->
            game_mode g'' = game_mode g
            /\ paragraphs g'' = paragraphs g
            /\ (game_state g'' = game_state g \/ game_state g'' = COMPLETE)
            /\ (game_mode g = Some Mode30sec -> game_state g'' = game_state g)
            /\ timers g `prefix_of` timers g''
            /\ (length (timers g'') <= S (length (timers g)))%nat).
  { intros g0 g'' Heq Hc. injection Heq as Q1 Q2 Q3 Q4.
    destruct (check_line_completion_frame e g0 g'' Hc) as (F1 & F2 & F3 & F4).
    unfold kept in F1. injection F1 as G1 G2 _ _ _ _.
    rewrite G1, G2, F2, Q1, Q2, Q4, K1, K2.
    rewrite Q3, Hs in F3. rewrite Q1, K1, Q3, Hs in F4.
    repeat (split; [solve [auto] |]). exact Hl. }
  destruct (_ && _ && _ && _).
  { intros H. injection H as <-. repeat split; auto; lia. }
  destruct (_ && _); [apply Hover; reflexivity |].
  destruct (_ <=? _)%nat; [apply Hover; reflexivity |].
  apply Hover. cbv zeta. fields.
  exact (scored_frame e
           (set_total_chars_typed
              (total_chars_typed (start_timer e g) + 1)
              (set_typed_text
                 (typed_text (start_timer e g) +:+ String c EmptyString)
                 (start_timer e g)))).
Qed.

Lemma start_mode_state mode e g g' :
  start_mode mode e g = Some g' ->
  game_state g' = MENU /\ timers g' = timers g.
Proof.
  unfold start_mode. intros H. simplify_option_eq. split; reflexivity.
Qed.

Lemma restart_state g g' :
  restart g = Some g' ->
  (g' = g \/ game_state g' = READY) /\ timers g' = timers g.
Proof.
  unfold restart. intros H.
  destruct (game_mode g); simplify_option_eq; split; auto.
Qed.

Lemma show_user_menu_frame e g :
  game_state (show_user_menu e g) = game_state g
  /\ timers (show_user_menu e g) = timers g.
Proof.
  unfold show_user_menu, save_user_data.
  repeat case_match; split; reflexivity.
Qed.

Lemma update_countdown_frame e g :
  (game_state (update_countdown e g) = game_state g
   \/ (0 < start_time g)%Q /\ completed g = false
      /\ game_state (update_countdown e g) = COMPLETE)
  /\ timers (update_countdown e g) = timers g
  /\ game_mode (update_countdown e g) = game_mode g.
Proof.
  unfold update_countdown.
  destruct (Qlt_le_dec 0 (start_time g)); [| auto].
  destruct (completed g); [auto |].
  destruct (Qlt_le_dec 0 _); [auto |].
  destruct (complete_game_kept e
              (set_countdown_remaining
                 (if Qlt_le_dec 0 (30 - (now_typed e - start_time g))
                  then (30 - (now_typed e - start_time g))%Q else 0%Q)
                 (set_elapsed_time (now_typed e - start_time g)%Q g)))
    as [Hk Ht].
  destruct (complete_game_flags e
              (set_countdown_remaining
                 (if Qlt_le_dec 0 (30 - (now_typed e - start_time g))
                  then (30 - (now_typed e - start_time g))%Q else 0%Q)
                 (set_elapsed_time (now_typed e - start_time g)%Q g)))
    as [_ Hs].
  unfold kept in Hk. injection Hk as K1 _ _ _ _ _.
  fields_in K1. fields_in Ht. auto.
Qed.

(** ** Properties of the state machine *)

(** X11. The countdown tick. While a test runs, [update_countdown] ends
    it as soon as 30 seconds have elapsed, whatever the mode and whatever
    was typed, with [countdown_remaining] at 0; before that it only sets
    [elapsed_time] and [countdown_remaining = 30 - elapsed]. *)
Theorem countdown_expiry (e : Env) (g : TypingGame) :
  (0 < start_time g)%Q -> completed g = false ->
  let elapsed := (now_typed e - start_time g)%Q in
  ((30 <= elapsed)%Q ->
   game_state (update_countdown e g) = COMPLETE
   /\ completed (update_countdown e g) = true
   /\ countdown_remaining (update_countdown e g) = 0%Q)
  /\ ((elapsed < 30)%Q ->
      update_countdown e g
      = set_countdown_remaining (30 - elapsed)%Q (set_elapsed_time elapsed g)).
Proof.
  intros Hstart Hc. cbv zeta. unfold update_countdown.
  destruct (Qlt_le_dec 0 (start_time g)) as [_ | Hle]; [| lra].
  rewrite Hc. fields.
  destruct (Qlt_le_dec 0 (30 - (now_typed e - start_time g))) as [Hlt | Hge].
  - split; [intros; lra |]. intros _.
    destruct (Qlt_le_dec 0 (30 - (now_typed e - start_time g)));
      [reflexivity | lra].
  - split; [| intros; lra]. intros _.
    destruct (Qlt_le_dec 0 0) as [H0 | _];
      [exfalso; revert H0; apply Qlt_irrefl |].
    destruct (complete_game_flags e
                (set_countdown_remaining 0%Q
                   (set_elapsed_time (now_typed e - start_time g)%Q g)))
      as [H1 H2].
    destruct (complete_game_fields e
                (set_countdown_remaining 0%Q
                   (set_elapsed_time (now_typed e - start_time g)%Q g)))
      as (H3 & _).
    unfold text_shape in H3. injection H3 as _ _ _ _ _ _ _ _ H3.
    auto.
Qed.

Lemma countdown_expiry_witness :
  game_state (update_countdown (at_time 140 0) sample_typing) = COMPLETE.
Proof.
  assert (H1 : (0 < start_time sample_typing)%Q) by (vm_compute; reflexivity).
  assert (H2 : (30 <= now_typed (at_time 140 0) - start_time sample_typing)%Q)
    by (vm_compute; discriminate).
  destruct (countdown_expiry (at_time 140 0) sample_typing H1
              sample_typing_running) as [H _].
  destruct (H H2) as [Hs _]. exact Hs.
Defined.

(** X12. At the start of a line a space is never typed. With a mode
    chosen and an empty buffer, the space key in [IN_TEST] changes
    nothing, and in [READY] it only moves the state to [IN_TEST]: the
    timer is not started and no character is counted. *)
Theorem line_start_space_ignored (e : Env) (g : TypingGame) :
  reachable g -> typed_text g = EmptyString ->
  (game_state g = IN_TEST -> on_key "space" e g = Some g)
  /\ (game_state g = READY ->
      on_key "space" e g = Some (set_game_state IN_TEST g)).
Proof.
  intros Hr Hty. pose proof (reachable_ok g Hr) as Hok.
  assert (Hskip : forall g0,
            typed_text g0 = EmptyString -> target_text g0 = target_text g ->
            game_mode g <> None ->
            handle_character e space g0 = Some g0).
  { intros g0 H0 Ht Hm.
    destruct (text_ok_target g (machine_text g Hok) Hm) as [Hne Hsp].
    unfold handle_character. rewrite H0, Ht.
    destruct (target_text g) as [| a t]; [contradiction |].
    rewrite bool_decide_true by reflexivity.
    rewrite (bool_decide_true _ Hsp). reflexivity. }
  split; intros Hs; unfold on_key; rewrite Hs;
    cbn [String.eqb Ascii.eqb Bool.eqb];
    change (typed_char "space") with (Some space);
    apply Hskip; try assumption; try reflexivity;
    apply (machine_mode g Hok); rewrite Hs;
    [right; left | left]; reflexivity.
Qed.

Lemma line_start_space_ignored_witness :
  on_key "space" (at_time 101 0) sample_line = Some sample_line.
Proof.
  assert (Hr : reachable sample_line).
  { apply (reachable_run
             [ (Key "enter", at_time 101 0); (Key "a", at_time 102 1) ]%string
             sample_chosen); [exact sample_chosen_reachable |].
    vm_compute. reflexivity. }
  assert (Hty : typed_text sample_line = EmptyString)
    by (vm_compute; reflexivity).
  assert (Hs : game_state sample_line = IN_TEST) by (vm_compute; reflexivity).
  destruct (line_start_space_ignored (at_time 101 0) sample_line Hr Hty)
    as [H _].
  exact (H Hs).
Defined.

(** X13. The moves of the state machine. From a reachable state one
    event changes [game_state] only along the table [allowed]: the menu
    leads to [READY]; [READY] leads back to the menu, to [IN_TEST] or
    straight to [COMPLETE]; [IN_TEST] leads to the menu or to [COMPLETE];
    [COMPLETE] leads to the menu or to [READY]. *)
Theorem state_transitions (ev : Event) (e : Env) (g g' : TypingGame) :
  reachable g -> step ev e g = Some g' ->
  allowed (game_state g) (game_state g') = true.
Proof.
  intros Hr Hstep. pose proof (reachable_ok g Hr) as Hok.
  destruct ev as [key | t]; cbn [step] in Hstep.
  - unfold on_key, new_paragraph in Hstep.
    destruct (game_state g) eqn:Hs;
      repeat case_match; simplify_eq; unfold cycle_theme; fields;
      rewrite ?Hs; try reflexivity;
      try match goal with
          | H : start_mode _ _ _ = Some _ |- _ =>
              destruct (start_mode_state _ _ _ _ H) as [-> _]; reflexivity
          | H : restart _ = Some _ |- _ =>
              destruct (restart_state _ _ H) as [[-> | ->] _];
              rewrite ?Hs; reflexivity
          | H : handle_character _ _ _ = Some _ |- _ =>
              destruct (handle_character_frame _ _ _ _ H)
                as (_ & _ & [-> | ->] & _); fields; rewrite ?Hs; reflexivity
          | |- context [show_user_menu ?e ?g0] =>
              destruct (show_user_menu_frame e g0) as [-> _];
              rewrite Hs; reflexivity
          end.
  - assert (Hsame : forall s, allowed s s = true) by (intros []; reflexivity).
    repeat case_match; simplify_eq; try apply Hsame.
    + destruct (update_countdown_frame e g) as ([-> | (Hstart & Hc & ->)] & _);
        [apply Hsame |].
      destruct (game_state g) eqn:Hs; try reflexivity;
        try (destruct (machine_idle g Hok) as [_ H0]; [congruence .. |];
             rewrite H0 in Hstart; exfalso; revert Hstart; apply Qlt_irrefl).
    + unfold update_timer. repeat case_match; apply Hsame.
Qed.

Lemma state_transitions_witness :
  allowed (game_state sample_chosen) (game_state (ready_up sample_chosen))
  = true.
Proof.
  assert (H : step (Key "enter") (at_time 101 0) sample_chosen
              = Some (ready_up sample_chosen))
    by (vm_compute; reflexivity).
  exact (state_transitions (Key "enter") (at_time 101 0) sample_chosen
           (ready_up sample_chosen) sample_chosen_reachable H).
Defined.

(** ** Timers, modes and idle states *)

Lemma on_key_timers key e g g' :
  on_key key e g = Some g' ->
  timers g `prefix_of` timers g'
  /\ (length (timers g') <= S (length (timers g)))%nat.
Proof.
  assert (Hsame : forall g0 : TypingGame,
            timers g0 = timers g ->
            timers g `prefix_of` timers g0
            /\ (length (timers g0) <= S (length (timers g)))%nat).
  { intros g0 ->. split; [reflexivity | lia]. }
  unfold on_key, new_paragraph. intros Hstep.
  destruct (game_state g) eqn:Hs;
    repeat case_match; simplify_eq;
    try (apply Hsame; reflexivity);
    try match goal with
        | H : start_mode _ _ _ = Some _ |- _ =>
            apply Hsame; exact (proj2 (start_mode_state _ _ _ _ H))
        | H : restart _ = Some _ |- _ =>
            apply Hsame; exact (proj2 (restart_state _ _ H))
        | H : handle_character _ _ _ = Some _ |- _ =>
            destruct (handle_character_frame _ _ _ _ H)
              as (_ & _ & _ & _ & Hp & Hl); exact (conj Hp Hl)
        | |- context [show_user_menu ?e ?g0] =>
            apply Hsame; exact (proj2 (show_user_menu_frame e g0))
        end.
Qed.

(** X14. An interval callback, once registered, stays registered: one
    event never removes a timer and registers at most one more. *)
Theorem timers_only_grow (ev : Event) (e : Env) (g g' : TypingGame) :
  step ev e g = Some g' ->
  timers g `prefix_of` timers g'
  /\ (length (timers g') <= S (length (timers g)))%nat.
Proof.
  destruct ev as [key | t]; cbn [step]; [apply on_key_timers |].
  intros Hstep.
  assert (Hsame : timers g' = timers g).
  { repeat case_match; simplify_eq; try reflexivity.
    - destruct (update_countdown_frame e g) as (_ & Ht & _). exact Ht.
    - unfold update_timer. repeat case_match; reflexivity. }
  rewrite Hsame. split; [reflexivity | lia].
Qed.

Lemma timers_only_grow_witness :
  timers sample_chosen `prefix_of` timers (ready_up sample_chosen).
Proof.
  assert (H : step (Key "enter") (at_time 101 0) sample_chosen
              = Some (ready_up sample_chosen))
    by (vm_compute; reflexivity).
  destruct (timers_only_grow (Key "enter") (at_time 101 0) sample_chosen
              (ready_up sample_chosen) H) as [Hp _].
  exact Hp.
Defined.

Lemma update_countdown_paragraphs e g :
  paragraphs (update_countdown e g) = paragraphs g.
Proof.
  unfold update_countdown.
  destruct (Qlt_le_dec 0 (start_time g)); [| reflexivity].
  destruct (completed g); [reflexivity |].
  destruct (Qlt_le_dec 0 _); [reflexivity |].
  match goal with
  | |- context [complete_game ?e ?g0] =>
      destruct (complete_game_kept e g0) as [Hk _]
  end.
  unfold kept in Hk. injection Hk as _ K2 _ _ _ _. rewrite K2. reflexivity.
Qed.

(** X15. The mode and the library cannot change under a test: from
    [READY] and from [IN_TEST] every event, key press or timer tick,
    leaves [game_mode] and [paragraphs] as they are. *)
Theorem mode_fixed_during_test (ev : Event) (e : Env) (g g' : TypingGame) :
  game_state g = READY \/ game_state g = IN_TEST ->
  step ev e g = Some g' ->
  game_mode g' = game_mode g /\ paragraphs g' = paragraphs g.
Proof.
  intros Hs Hstep. destruct ev as [key | t]; cbn [step] in Hstep.
  - unfold on_key in Hstep.
    destruct Hs as [Hs | Hs]; rewrite Hs in Hstep;
      repeat case_match; simplify_eq; try (split; reflexivity);
      match goal with
      | H : handle_character _ _ _ = Some _ |- _ =>
          destruct (handle_character_frame _ _ _ _ H) as (Hm & Hp & _);
          exact (conj Hm Hp)
      end.
  - repeat case_match; simplify_eq; try (split; reflexivity).
    + destruct (update_countdown_frame e g) as (_ & _ & Hm).
      split; [exact Hm | apply update_countdown_paragraphs].
    + unfold update_timer. repeat case_match; split; reflexivity.
Qed.

Lemma mode_fixed_during_test_witness :
  game_mode (cancel_test sample_typing) = game_mode sample_typing.
Proof.
  assert (H : step (Key "escape") (at_time 104 0) sample_typing
              = Some (cancel_test sample_typing))
    by (vm_compute; reflexivity).
  destruct (mode_fixed_during_test (Key "escape") (at_time 104 0)
              sample_typing (cancel_test sample_typing)
              (or_intror sample_typing_state) H) as [Hm _].
  exact Hm.
Defined.

(** X16. A ["30sec"] test is never ended by a key: whatever is typed in
    [READY] or [IN_TEST], the state after the key is not [COMPLETE]. Only
    the countdown ends it. *)
Theorem sprint_ends_by_countdown (key : string) (e : Env)
    (g g' : TypingGame) :
  game_mode g = Some Mode30sec ->
  game_state g = READY \/ game_state g = IN_TEST ->
  on_key key e g = Some g' ->
  game_state g' <> COMPLETE.
Proof.
  intros Hm Hs Hstep. unfold on_key in Hstep.
  destruct Hs as [Hs | Hs]; rewrite Hs in Hstep;
    repeat case_match; simplify_eq; unfold cycle_theme; fields;
    rewrite ?Hs; try discriminate;
    match goal with
    | H : handle_character _ _ _ = Some _ |- _ =>
        destruct (handle_character_frame _ _ _ _ H) as (_ & _ & _ & H4 & _);
        rewrite (H4 Hm); fields; rewrite ?Hs; discriminate
    end.
Qed.

Lemma sprint_ends_by_countdown_witness :
  game_state sample_typing <> COMPLETE.
Proof.
  assert (Hm : game_mode sample_line = Some Mode30sec)
    by (vm_compute; reflexivity).
  assert (Hs : game_state sample_line = IN_TEST) by (vm_compute; reflexivity).
  assert (H : on_key "y" (at_time 103 0) sample_line = Some sample_typing)
    by (vm_compute; reflexivity).
  exact (sprint_ends_by_countdown "y" (at_time 103 0) sample_line
           sample_typing Hm (or_intror Hs) H).
Defined.

(** X17. Outside a running test a timer tick does nothing: in every
    reachable state other than [IN_TEST], whichever callback fires, the
    application object is unchanged. *)
Theorem idle_tick_is_noop (t : Timer) (e : Env) (g : TypingGame) :
  reachable g -> game_state g <> IN_TEST ->
  step (Tick t) e g = Some g.
Proof.
  intros Hr Hs. pose proof (reachable_ok g Hr) as Hok.
  assert (Hidle : start_time g = 0%Q \/ completed g = true).
  { destruct (decide (game_state g = COMPLETE)) as [Hc | Hc].
    - right. apply (machine_completed g Hok). exact Hc.
    - left. apply (machine_idle g Hok Hs Hc). }
  cbn [step]. unfold update_countdown, update_timer.
  destruct (bool_decide _); [| reflexivity].
  destruct Hidle as [H0 | Hc].
  - rewrite H0.
    destruct (Qlt_le_dec 0 0) as [H | _];
      [exfalso; revert H; apply Qlt_irrefl |].
    destruct t; reflexivity.
  - rewrite Hc. destruct t; destruct (Qlt_le_dec 0 (start_time g));
      reflexivity.
Qed.

Lemma idle_tick_is_noop_witness :
  step (Tick TimerCountdown) (at_time 200 0) sample_complete
  = Some sample_complete.
Proof.
  assert (Hs : game_state sample_complete <> IN_TEST)
    by (rewrite sample_complete_state; discriminate).
  exact (idle_tick_is_noop TimerCountdown (at_time 200 0) sample_complete
           sample_complete_reachable Hs).
Defined.

(** ** The user store *)

(** X18. [create_user] never overwrites: for a known name it changes
    nothing, for a new name it stores the all-zero statistics, and the
    entries of other names are as before. *)
Theorem create_user_keeps_existing (name : string) (g : TypingGame) :
  (forall u, user_data g !! name = Some u -> create_user name g = g)
  /\ (user_data g !! name = None ->
      user_data (create_user name g) !! name = Some new_user_stats)
  /\ (forall other, other <> name ->
        user_data (create_user name g) !! other = user_data g !! other).
Proof.
  unfold create_user. split; [| split].
  - intros u ->. reflexivity.
  - intros ->. fields. apply lookup_insert_eq.
  - intros other Hne. destruct (user_data g !! name); [reflexivity |].
    fields. apply lookup_insert_ne. congruence.
Qed.

Lemma create_user_keeps_existing_witness :
  user_data (create_user "bob" sample_complete) = user_data sample_complete
  /\ user_data (create_user "amy" sample_complete) !! "amy"%string
     = Some new_user_stats.
Proof.
  destruct (create_user_keeps_existing "bob" sample_complete) as (H1 & _).
  destruct (create_user_keeps_existing "amy" sample_complete) as (_ & H2 & _).
  split.
  - destruct (user_data sample_complete !! "bob"%string) as [u |] eqn:Hu.
    + rewrite (H1 u eq_refl). reflexivity.
    + vm_compute in Hu. discriminate Hu.
  - apply H2. vm_compute. reflexivity.
Defined.

(** X19. [update_user_stats] for the current user: one more test, the
    best WPM raised to the new one if that is higher and never lowered,
    and no other user's entry touched; a user without an entry starts
    from the all-zero statistics. *)
Theorem update_user_stats_record (e : Env) (wpm : Z) (acc : Q)
    (g : TypingGame) (name : string) :
  current_user g = Some name -> name <> EmptyString ->
  let before := default new_user_stats (user_data g !! name) in
  exists after,
    user_data (update_user_stats e wpm acc g) !! name = Some after
    /\ tests_completed after = tests_completed before + 1
    /\ best_wpm after = Z.max (best_wpm before) wpm
    /\ total_wpm after = (total_wpm before + inject_Z wpm)%Q
    /\ total_accuracy after = (total_accuracy before + acc)%Q
    /\ (forall other, other <> name ->
          user_data (update_user_stats e wpm acc g) !! other
          = user_data g !! other).
Proof.
  intros Hu Hne. cbv zeta.
  assert (Ht : truthy (current_user g) = true).
  { rewrite Hu. cbn [truthy]. apply negb_true_iff, String.eqb_neq, Hne. }
  assert (Hmax : forall a b, (if a <? b then b else a) = Z.max a b).
  { intros a b. destruct (a <? b) eqn:E; lia. }
  unfold update_user_stats. rewrite Ht, Hu. cbn [negb].
  destruct (user_data g !! name) as [u |] eqn:Hl.
  - rewrite Hl. rewrite save_user_data_users. fields.
    rewrite lookup_insert_eq. eexists. split; [reflexivity |].
    cbn [tests_completed best_wpm total_wpm total_accuracy default].
    rewrite Hmax. repeat (split; [reflexivity |]).
    intros other Ho. apply lookup_insert_ne. congruence.
  - unfold create_user. rewrite Hl. fields. rewrite lookup_insert_eq.
    rewrite save_user_data_users. fields. rewrite lookup_insert_eq.
    eexists. split; [reflexivity |].
    cbn [tests_completed best_wpm total_wpm total_accuracy default].
    rewrite Hmax. repeat (split; [reflexivity |]).
    intros other Ho. rewrite !lookup_insert_ne by congruence. reflexivity.
Qed.

Lemma update_user_stats_record_witness :
  exists after,
    user_data (update_user_stats (at_time 140 0) 7 50 sample_typing)
      !! "bob"%string = Some after
    /\ tests_completed after = 1.
Proof.
  assert (Hu : current_user sample_typing = Some "bob"%string)
    by (vm_compute; reflexivity).
  assert (Hne : "bob"%string <> EmptyString) by discriminate.
  destruct (update_user_stats_record (at_time 140 0) 7 50 sample_typing
              "bob" Hu Hne) as (after & H1 & H2 & _).
  exists after. split; [exact H1 |].
  rewrite H2. vm_compute. reflexivity.
Defined.

(** ** Leaving the result screen *)

(** X20. [r] on the result screen replays the same text. From a
    reachable [COMPLETE] state it cannot fail; it leads to [READY] with
    the mode, the paragraph and its lines kept, the first line as target
    and every per-session attribute reset. *)
Theorem restart_replays_paragraph (e : Env) (g : TypingGame) :
  reachable g -> game_state g = COMPLETE ->
  exists g',
    on_key "r" e g = Some g'
    /\ game_state g' = READY
    /\ game_mode g' = game_mode g
    /\ current_paragraph g' = current_paragraph g
    /\ current_lines g' = current_lines g
    /\ current_line_index g' = 0%nat
    /\ current_lines g' !! 0%nat = Some (target_text g')
    /\ completed g' = false
    /\ typed_text g' = EmptyString
    /\ total_chars_typed g' = 0
    /\ mistakes g' = 0
    /\ total_words_typed g' = 0
    /\ best_streak g' = 0
    /\ mistake_positions g' = ∅
    /\ completed_lines_history g' = [].
Proof.
  intros Hr Hs. pose proof (reachable_ok g Hr) as Hok.
  assert (Hm : game_mode g <> None).
  { apply (machine_mode g Hok). rewrite Hs. right. right. reflexivity. }
  destruct (text_lines g (machine_text g Hok) Hm) as (_ & Hl & Hi).
  assert (H0 : exists t, current_lines g !! 0%nat = Some t).
  { apply lookup_lt_Some in Hi. apply lookup_lt_is_Some_2. lia. }
  destruct H0 as [t H0].
  unfold on_key. rewrite Hs. cbn [String.eqb Ascii.eqb Bool.eqb].
  unfold restart. destruct (game_mode g) as [mode |] eqn:Hmode;
    [| contradiction].
  fields. rewrite Hl in H0.
  eexists. split; [rewrite H0; reflexivity |]. unfold reset_session. fields.
  rewrite <- Hl. repeat (split; [reflexivity |]).
  split; [rewrite Hl; exact H0 |]. repeat (split; [reflexivity |]).
  reflexivity.
Qed.

Lemma restart_replays_paragraph_witness :
  exists g',
    on_key "r" (at_time 104 0) sample_complete = Some g'
    /\ game_state g' = READY
    /\ current_paragraph g' = current_paragraph sample_complete.
Proof.
  destruct (restart_replays_paragraph (at_time 104 0) sample_complete
              sample_complete_reachable sample_complete_state)
    as (g' & H1 & H2 & _ & H3 & _).
  exists g'. exact (conj H1 (conj H2 H3)).
Defined.

(** X21. Leaving the result screen for the menu, with [m] or [escape],
    does discard the session: the state is [MENU], no mode is chosen,
    and the buffer, the counters, the streaks, the mistake positions and
    the history are back at their initial values; the user and the
    store are kept. *)
Theorem return_to_menu_discards (e : Env) (g : TypingGame) :
  game_state g = COMPLETE ->
  on_key "m" e g = Some (return_to_menu g)
  /\ on_key "escape" e g = Some (return_to_menu g)
  /\ game_state (return_to_menu g) = MENU
  /\ session_discarded (return_to_menu g)
  /\ completed (return_to_menu g) = false
  /\ start_time (return_to_menu g) = 0%Q
  /\ current_lines (return_to_menu g) = []
  /\ store (return_to_menu g) = store g.
Proof.
  intros Hs. unfold on_key. rewrite Hs.
  cbn [String.eqb Ascii.eqb Bool.eqb orb].
  unfold session_discarded. repeat split; reflexivity.
Qed.

Lemma return_to_menu_discards_witness :
  on_key "m" (at_time 104 0) sample_complete
  = Some (return_to_menu sample_complete)
  /\ session_discarded (return_to_menu sample_complete).
Proof.
  destruct (return_to_menu_discards (at_time 104 0) sample_complete
              sample_complete_state) as (H1 & _ & _ & H2 & _).
  exact (conj H1 H2).
Defined.

(** ** Final words per minute with nothing typed *)

(** X22. With no character typed the final WPM is 0 in every mode
    that counts characters, whatever the elapsed time; in ["30word"]
    mode the characters typed do not enter the result at all. *)
Theorem nothing_typed_scores_zero (mode : option Mode) (elapsed : Q) :
  (mode <> Some Mode30word -> final_wpm mode 0 elapsed = 0)
  /\ (forall chars chars',
        final_wpm (Some Mode30word) chars elapsed
        = final_wpm (Some Mode30word) chars' elapsed).
Proof.
  split; [| reflexivity].
  intros Hmode. unfold final_wpm.
  assert (Hw : final_words mode 0 = SpecFloat.S754_zero false).
  { destruct mode as [[| |] |]; try reflexivity. contradiction. }
  rewrite Hw.
  destruct (float_lt float_zero (final_minutes mode elapsed)) eqn:Hlt;
    [| reflexivity].
  destruct (final_minutes mode elapsed) as [[|] | [|] | | [|] m x];
    try discriminate Hlt; reflexivity.
Qed.

Lemma nothing_typed_scores_zero_witness :
  final_wpm (Some ModeUnlimited) 0 45 = 0.
Proof.
  destruct (nothing_typed_scores_zero (Some ModeUnlimited) 45) as [H _].
  apply H. discriminate.
Defined.
